(** * The chat endpoint of chat-ollama: [server/api/models/chat/index.post.ts]

    The handler answers one chat request either from a knowledge base
    (retrieval, optional reranking, prompt assembly, model call) or, when the
    request names no knowledge base, by calling a model that may request
    tools.  Everything outside the file (database, embeddings, retriever,
    reranker, chat model, MCP client and registry, the HTTP layer) is a
    collaborator: the handler is embedded as a program over the calls it
    makes to them, and run against an arbitrary world that answers each call
    or raises. *)

From Stdlib Require Import ZArith String Ascii List Floats.
From stdpp Require Import base option list gmap strings pretty.

Open Scope string_scope.
Open Scope Z_scope.
Open Scope list_scope.

#[local] Set Warnings "-inexact-float".

(** ** JavaScript values that the handler only tests for truthiness *)

Inductive JsValue :=
| JsUndefined
| JsNull
| JsBool (b : bool)
| JsNumber (z : Z)
| JsString (s : string).

Definition nonempty (s : string) : bool :=
  match s with EmptyString => false | String _ _ => true end.

Definition truthy (v : JsValue) : bool :=
  match v with
  | JsUndefined | JsNull => false
  | JsBool b => b
  | JsNumber z => negb (z =? 0)
  | JsString s => nonempty s
  end.

(** An optional string ([undefined] or a string), as [process.env.X] and the
    optional fields are; the empty string is falsy. *)
Definition truthy_str (o : option string) : bool :=
  match o with Some s => nonempty s | None => false end.

(** [a || b] on an optional string with a string default. *)
Definition or_else (o : option string) (d : string) : string :=
  match o with
  | Some s => if nonempty s then s else d
  | None => d
  end.

(** A request's [knowledgebaseId]: absent or null ([None]) or a number. *)
Definition truthy_id (o : option Z) : bool :=
  match o with Some z => negb (z =? 0) | None => false end.

(** ** Data model *)

Record Message := {
  role : string;
  content : string;
  toolCallId : option string;
  toolResult : bool
}.

Record RequestBody := {
  knowledgebaseId : option Z;
  model : string;
  family : string;
  messages : list Message;
  stream : JsValue
}.

(** LangChain's message classes, as [normalizeMessages] builds them. *)
Inductive BaseMessage :=
| ToolMessage (text : string) (tool_call_id : option string)
| HumanMessage (text : string)
| AIMessage (text : string).

(** A row of the [knowledgeBase] table. *)
Record KnowledgeBase := {
  kb_id : Z;
  kb_name : string;
  kb_embedding : option string
}.

Record Document := {
  pageContent : string;
  metadata : string
}.

(** The part of [process.env] the handler reads. *)
Record Env := {
  OPENAI_API_KEY : option string;
  COHERE_API_KEY : option string;
  COHERE_BASE_URL : option string;
  COHERE_MODEL : option string
}.

(** The options object handed to [new CohereRerank(options)]. *)
Record RerankOptions := {
  apiKey : option string;
  baseUrl : option string;
  rerank_model : option string;
  topN : nat
}.

(** The content of a model message or chunk: a string, or an array of parts. *)
Record ContentPart := {
  part_type : string;
  part_text : option string
}.

Inductive Content :=
| Text (s : string)
| Parts (items : list ContentPart).

Record ToolCall := {
  name : string;
  call_id : option string;
  args : string
}.

(** What a model call returns ([response?.content], and the tool calls the
    reply carries). *)
Record ModelReply := {
  reply_content : option Content;
  reply_tool_calls : list ToolCall
}.

(** One chunk of a model stream; [GatheredResponse] is a chunk too. *)
Record Chunk := {
  chunk_content : option Content;
  tool_calls : option (list ToolCall)
}.

(** A model stream: the chunks it yields, then its end or an error. *)
Record ChunkStream := {
  chunks : list Chunk;
  stream_failure : option string
}.

(** An entry of the MCP client's [listTools()] answer. *)
Record ToolDescriptor := {
  td_name : string;
  td_description : string;
  td_inputSchema : string
}.

(** The tools of the agentic branch: the constant calculator, a wrapper
    around [client.callTool] for a descriptor, and a tool as the registry
    service lists it. *)
Inductive Tool :=
| CalculatorTool
| McpClientTool (d : ToolDescriptor)
| RegistryTool (tool_name : string) (ref : nat).

Definition tool_name_of (t : Tool) : string :=
  match t with
  | CalculatorTool => "calculator"
  | McpClientTool d => td_name d
  | RegistryTool n _ => n
  end.

(** What [selectedTool.invoke(toolCall)] returns. *)
Record ToolResult := {
  tool_call_id : option string;
  result_content : string
}.

Inductive Embeddings := EmbeddingsRef (n : nat).
Inductive Retriever := RetrieverRef (n : nat).

(** A chat model: what [createChatModel] made, or a binding of tools around
    one ([llm.bind] returns a binding, which is no instance of the model's
    own class). *)
Inductive ChatModel :=
| ChatModelRef (n : nat) (isChatOllama : bool)
| Bound (tools : list Tool) (inner : ChatModel).

Definition instanceof_ChatOllama (llm : ChatModel) : bool :=
  match llm with
  | ChatModelRef _ b => b
  | Bound _ _ => false
  end.

Inductive ModelInput :=
| PromptInput (prompt : string)
| MessagesInput (msgs : list (string * string)).

Record CorefResult := {
  output : option string
}.

(** The body returned by the non-streaming branches. *)
Record ResponseMessage := {
  rm_role : string;
  rm_content : option Content;
  relevant_docs : option (list Document)
}.

(** One object written to the response stream (each is serialized with
    [JSON.stringify] and followed by a blank and two newlines). *)
Inductive OutboundEvent :=
| MessageEvent (r : string) (c : option Content)
| RelevantDocuments (relevant_documents : list Document)
| ToolResultEvent (tool_use_id : option string) (c : string).

Inductive Response :=
| RespUndefined
| RespJson (message : ResponseMessage)
| RespStream.

Inductive Error :=
| TypeError (msg : string)
| JsError (msg : string).

(** ** Calls to collaborators *)

Inductive Call : Type -> Type :=
| FindUnique (id : Z) : Call (option KnowledgeBase)
| SetResponseStatus (code : Z) (text : string) : Call unit
| CreateEmbeddings (embedding : option string) : Call Embeddings
| CreateRetriever (e : Embeddings) (collection : string) : Call Retriever
| CreateChatModel (m f : string) : Call ChatModel
| ResolveCoreference (query : string) (history : list BaseMessage)
    (key : option string) : Call CorefResult
| GetRelevantDocuments (r : Retriever) (query : string) : Call (list Document)
| CompressDocuments (o : RerankOptions) (docs : list Document)
    (query : string) : Call (list Document)
| Invoke (llm : ChatModel) (input : ModelInput) : Call ModelReply
| Stream (llm : ChatModel) (input : ModelInput) : Call ChunkStream
| SetEventStreamResponse : Call unit
| SendStream : Call unit
| Enqueue (ev : OutboundEvent) : Call unit
| ClientConnect (command : string) (arguments : list string) : Call unit
| ClientListTools : Call (list ToolDescriptor)
| McpServiceListTools : Call (option (list Tool))
| ToolInvoke (t : Tool) (c : ToolCall) : Call ToolResult.

(** A handler is a tree of calls: it returns, throws, or makes a call and
    goes on with the answer. *)
Inductive Prog (A : Type) : Type :=
| Ret (a : A)
| Throw (e : Error)
| Vis {X : Type} (c : Call X) (k : X -> Prog A).

Arguments Ret {A} a.
Arguments Throw {A} e.
Arguments Vis {A X} c k.

Fixpoint bind {A B : Type} (m : Prog A) (f : A -> Prog B) : Prog B :=
  match m with
  | Ret a => f a
  | Throw e => Throw e
  | Vis c k => Vis c (fun x => bind (k x) f)
  end.

#[global] Instance prog_ret : MRet Prog := @Ret.
#[global] Instance prog_bind : MBind Prog := fun A B f m => bind m f.

Definition call {X : Type} (c : Call X) : Prog X := Vis c Ret.

(** ** Running a handler against a world *)

Inductive Reply (X : Type) : Type :=
| Returns (x : X)
| Raises (e : Error).

Arguments Returns {X} x.
Arguments Raises {X} e.

Record World := {
  world_state : Type;
  respond : forall X : Type, Call X -> world_state -> Reply X * world_state
}.

Inductive Event :=
| Called {X : Type} (c : Call X) (r : Reply X).

Inductive Outcome (A : Type) : Type :=
| Returned (a : A)
| Thrown (e : Error).

Arguments Returned {A} a.
Arguments Thrown {A} e.

(** [run] answers each call from the world, threads the state of the world,
    and stops at the first call that raises: nothing in the file catches. *)
Fixpoint run (w : World) {A : Type} (p : Prog A) (s : world_state w)
  : list Event * Outcome A * world_state w :=
  match p with
  | Ret a => ([], Returned a, s)
  | Throw e => ([], Thrown e, s)
  | Vis c k =>
      match respond w _ c s with
      | (Returns x, s') =>
          let '(t, o, s'') := run w (k x) s' in (Called c (Returns x) :: t, o, s'')
      | (Raises e, s') => ([Called c (Raises e)], Thrown e, s')
      end
  end.

Definition trace_of {A S : Type} (r : list Event * Outcome A * S) : list Event := r.1.1.
Definition outcome_of {A S : Type} (r : list Event * Outcome A * S) : Outcome A := r.1.2.

(** ** Numbers: doubles, and how a template literal prints them *)

(** Compare [s * 10^p] with [c * 2^f], exactly. *)
Definition cmp_scaled (s p c f : Z) : comparison :=
  (s * 10 ^ Z.max p 0 * 2 ^ Z.max (- f) 0 ?= c * 2 ^ Z.max f 0 * 10 ^ Z.max (- p) 0).

(** Does [s * 10^p] round to the double [m * 2^e]?  The interval is taken in
    units of [2^(e-2)]; its ends belong to it when [m] is even. *)
Definition rounds_to (s p m e : Z) : bool :=
  let below := if (m =? 2 ^ 52) && (-1074 <? e) then 1 else 2 in
  match cmp_scaled s p (4 * m - below) (e - 2) with
  | Gt => true | Eq => Z.even m | Lt => false
  end
  &&
  match cmp_scaled s p (4 * m + 2) (e - 2) with
  | Lt => true | Eq => Z.even m | Gt => false
  end.

(** The largest [q] with [10^q <= m * 2^e], corrected from an estimate. *)
Fixpoint settle_log10 (fuel : nat) (q m e : Z) : Z :=
  match fuel with
  | O => q
  | S fuel' =>
      match cmp_scaled 1 (q + 1) m e with
      | Gt => match cmp_scaled 1 q m e with
              | Gt => settle_log10 fuel' (q - 1) m e
              | _ => q
              end
      | _ => settle_log10 fuel' (q + 1) m e
      end
  end.

Definition floor_log10 (m e : Z) : Z :=
  settle_log10 4 ((Z.log2 m + e) * 30103 / 100000) m e.

(** The digits [s] and exponent [p] of the shortest decimal [s * 10^p] that
    rounds to [m * 2^e], tried with [k], [k+1], ... digits; of the two
    candidates around the double the closer one is taken. *)
Fixpoint shortest (fuel : nat) (k q m e : Z) : Z * Z :=
  let p := q - k + 1 in
  let lo := (m * 2 ^ Z.max e 0 * 10 ^ Z.max (- p) 0) / (2 ^ Z.max (- e) 0 * 10 ^ Z.max p 0) in
  let hi := lo + 1 in
  match fuel with
  | O => (lo, p)
  | S fuel' =>
      match rounds_to lo p m e, rounds_to hi p m e with
      | true, true =>
          match cmp_scaled (lo + hi) p (2 * m) e with
          | Gt => (lo, p)
          | Lt => (hi, p)
          | Eq => if Z.even lo then (lo, p) else (hi, p)
          end
      | true, false => (lo, p)
      | false, true => (hi, p)
      | false, false => shortest fuel' (k + 1) q m e
      end
  end.

Fixpoint zeros (n : nat) : string :=
  match n with O => EmptyString | S n' => String "0"%char (zeros n') end.

(** Number::toString for a positive finite double [m * 2^e]. *)
Definition positive_to_string (m e : Z) : string :=
  let '(s0, p0) := shortest 17 1 (floor_log10 m e) m e in
  let '(s, p) := if (10 <=? s0) && (s0 mod 10 =? 0) then (s0 / 10, p0 + 1) else (s0, p0) in
  let digits := pretty s in
  let k := Z.of_nat (String.length digits) in
  let n := p + k in
  if (k <=? n) && (n <=? 21) then digits +:+ zeros (Z.to_nat (n - k))
  else if (0 <? n) && (n <=? 21) then
    substring 0 (Z.to_nat n) digits +:+ "." +:+ substring (Z.to_nat n) (Z.to_nat (k - n)) digits
  else if (-6 <? n) && (n <=? 0) then "0." +:+ zeros (Z.to_nat (- n)) +:+ digits
  else
    let exponent := (if 0 <? n - 1 then "+" else "-") +:+ pretty (Z.abs (n - 1)) in
    if k =? 1 then digits +:+ "e" +:+ exponent
    else substring 0 1 digits +:+ "." +:+ substring 1 (Z.to_nat (k - 1)) digits
           +:+ "e" +:+ exponent.

(** Number::toString, as a template literal applies it. *)
Definition number_to_string (x : float) : string :=
  match Prim2SF x with
  | S754_nan => "NaN"
  | S754_zero _ => "0"
  | S754_infinity false => "Infinity"
  | S754_infinity true => "-Infinity"
  | S754_finite sign m e =>
      (if sign then "-" else EmptyString) +:+ positive_to_string (Z.pos m) e
  end.

(** The function wrapped by [calculatorTool]: the result is the number as a
    template literal prints it. *)
Definition calculatorTool (operation : string) (number1 number2 : float) : Reply string :=
  if String.eqb operation "add" then Returns (number_to_string (number1 + number2)%float)
  else if String.eqb operation "subtract" then Returns (number_to_string (number1 - number2)%float)
  else if String.eqb operation "multiply" then Returns (number_to_string (number1 * number2)%float)
  else if String.eqb operation "divide" then Returns (number_to_string (number1 / number2)%float)
  else Raises (JsError "Invalid operation.").

(** ** The pure helpers of the file *)

Definition nl : string := String "010"%char EmptyString.
Definition dq : string := String "034"%char EmptyString.

(** [PromptTemplate.fromTemplate(SYSTEM_TEMPLATE)] formatted with the three
    slots of the template. *)
Definition SYSTEM_TEMPLATE (context chatHistory question : string) : string :=
  "Answer the user's question based on the context below." +:+ nl +:+
  "Present your answer in a structured Markdown format." +:+ nl +:+ nl +:+
  "If the context doesn't contain any relevant information to the question, don't make something up and just say "
    +:+ dq +:+ "I don't know" +:+ dq +:+ ":" +:+ nl +:+ nl +:+
  "<context>" +:+ nl +:+ context +:+ nl +:+ "</context>" +:+ nl +:+ nl +:+
  "<chat_history>" +:+ nl +:+ chatHistory +:+ nl +:+ "</chat_history>" +:+ nl +:+ nl +:+
  "<question>" +:+ nl +:+ question +:+ nl +:+ "</question>" +:+ nl +:+ nl +:+
  "Answer:" +:+ nl.

Definition serializeMessages (messages : list Message) : string :=
  String.concat nl (map (fun message => role message +:+ ": " +:+ content message) messages).

Definition transformMessages (messages : list Message) : list (string * string) :=
  map (fun message => (role message, content message)) messages.

(** The body of the loop of [normalizeMessages]: one [push] for a message
    that is a tool result, a user turn or an assistant turn; any other
    message is passed over.  The [!] on [message.toolCallId] is erased by
    the compiler. *)
Definition push_message (normalizedMessages : list BaseMessage) (message : Message)
  : list BaseMessage :=
  if toolResult message then
    normalizedMessages ++ [ToolMessage (content message) (toolCallId message)]
  else if String.eqb (role message) "user" then
    normalizedMessages ++ [HumanMessage (content message)]
  else if String.eqb (role message) "assistant" then
    normalizedMessages ++ [AIMessage (content message)]
  else normalizedMessages.

Definition normalizeMessages (messages : list Message) : list BaseMessage :=
  foldl push_message [] messages.

(** LangChain's [formatDocumentsAsString]: the page contents, joined by a
    blank line. *)
Definition formatDocumentsAsString (docs : list Document) : string :=
  String.concat (nl +:+ nl) (map pageContent docs).

(** The flattening of an array content in the agentic stream loop (its
    result is assigned to a local that the loop never reads again). *)
Definition flatten_text_deltas (c : option Content) : option Content :=
  match c with
  | Some (Parts items) =>
      Some (Text (String.concat EmptyString
        (omap (fun item =>
                 if String.eqb (part_type item) "text_delta" then part_text item else None)
              items)))
  | other => other
  end.

(** The reranker is on when a Cohere model is set together with an API key
    or a base URL. *)
Definition rerank_configured (env : Env) : bool :=
  (truthy_str (COHERE_API_KEY env) || truthy_str (COHERE_BASE_URL env))
  && truthy_str (COHERE_MODEL env).

Definition rerank_options (env : Env) : RerankOptions :=
  {| apiKey := COHERE_API_KEY env;
     baseUrl := COHERE_BASE_URL env;
     rerank_model := COHERE_MODEL env;
     topN := 4 |}.

Definition transport_command : string :=
  "C:\Users\DaWil\AppData\Local\Microsoft\WinGet\Packages\astral-sh.uv_Microsoft.Winget.Source_8wekyb3d8bbwe\uvx.exe".

Definition transport_args : list string :=
  ["mcp-server-sqlite"; "--db-path"; "C:\Users\DaWil\test.db"].

(** The reducer that builds the lookup map: [acc[tool.name] = tool]. *)
Definition assign_tool (acc : gmap string Tool) (tool : Tool) : gmap string Tool :=
  <[tool_name_of tool := tool]> acc.

(** The catalog's lookup map: the reduce over the registry's tools, run
    when there is at least one. *)
Definition toolsMap (normalizedTools : list Tool) : gmap string Tool :=
  match normalizedTools with
  | [] => ∅
  | _ => foldl assign_tool ∅ normalizedTools
  end.

Definition assistant_message (c : option Content) (docs : option (list Document))
  : ResponseMessage :=
  {| rm_role := "assistant"; rm_content := c; relevant_docs := docs |}.

Definition stream_end (failure : option string) : Prog unit :=
  match failure with
  | Some e => Throw (JsError e)
  | None => Ret ()
  end.

(** The generator of the knowledge-base stream: a message per chunk whose
    content is defined. *)
Fixpoint yield_chunks (cs : list Chunk) : Prog unit :=
  match cs with
  | [] => Ret ()
  | chunk :: rest =>
      match chunk_content chunk with
      | Some c => call (Enqueue (MessageEvent "assistant" (Some c)))
      | None => Ret ()
      end;;
      yield_chunks rest
  end.

(** The loop over the tool calls of the gathered response. *)
Fixpoint dispatch (tm : gmap string Tool) (calls : list ToolCall) : Prog unit :=
  match calls with
  | [] => Ret ()
  | toolCall :: rest =>
      match tm !! name toolCall with
      | Some selectedTool =>
          result ← call (ToolInvoke selectedTool toolCall);
          call (Enqueue (ToolResultEvent (tool_call_id result) (result_content result)))
      | None => Ret ()
      end;;
      dispatch tm rest
  end.

Section Handler.

(** [concat] of [@langchain/core/utils/stream] and the family name
    [MODEL_FAMILIES.anthropic] of the configuration module. *)
Variable concat : Chunk -> Chunk -> Chunk.
Variable anthropic : string.
Variable env : Env.

(** The first loop of the agentic stream: fold the chunk into [gathered]
    and enqueue a message carrying the content of the chunk. *)
Fixpoint forward_chunks (cs : list Chunk) (gathered : option Chunk)
  : Prog (option Chunk) :=
  match cs with
  | [] => Ret gathered
  | chunk :: rest =>
      let gathered' :=
        Some (match gathered with Some g => concat g chunk | None => chunk end) in
      let content' := flatten_text_deltas (chunk_content chunk) in
      call (Enqueue (MessageEvent "assistant" (chunk_content chunk)));;
      forward_chunks rest gathered'
  end.

Definition rag_stream_body (response : ChunkStream) (rerankedDocuments : list Document)
  : Prog unit :=
  yield_chunks (chunks response);;
  stream_end (stream_failure response);;
  call (Enqueue (RelevantDocuments rerankedDocuments)).

(** The knowledge-base branch from the rerank block on: rerank when
    configured, assemble the prompt, then answer in one piece or as a
    stream. *)
Definition answer_from_documents (req : RequestBody) (chat : ChatModel)
    (query reformulatedQuery : string) (docs : list Document) : Prog Response :=
  rerankedDocuments ←
    (if rerank_configured env
     then call (CompressDocuments (rerank_options env) docs reformulatedQuery)
     else Ret docs);
  let prompt :=
    PromptInput (SYSTEM_TEMPLATE (formatDocumentsAsString rerankedDocuments)
                   (serializeMessages (messages req)) query) in
  if negb (truthy (stream req)) then
    response ← call (Invoke chat prompt);
    Ret (RespJson (assistant_message (reply_content response) (Some docs)))
  else
    call SetEventStreamResponse;;
    response ← call (Stream chat prompt);
    call SendStream;;
    rag_stream_body response rerankedDocuments;;
    Ret RespStream.

(** The knowledge-base branch: look the knowledge base up, build the
    retriever and the model, reformulate the last message, retrieve. *)
Definition knowledge_base_branch (req : RequestBody) (id : Z) : Prog Response :=
  knowledgebase ← call (FindUnique id);
  match knowledgebase with
  | None =>
      call (SetResponseStatus 404
              ("Knowledge base with id " +:+ pretty id +:+ " not found"));;
      Ret RespUndefined
  | Some knowledgebase =>
      embeddings ← call (CreateEmbeddings (kb_embedding knowledgebase));
      retriever ← call (CreateRetriever embeddings
                          ("collection_" +:+ pretty (kb_id knowledgebase)));
      chat ← call (CreateChatModel (model req) (family req));
      query ← match last (messages req) with
              | Some message => Ret (content message)
              | None => Throw (TypeError "Cannot read properties of undefined (reading 'content')")
              end;
      reformulatedResult ←
        call (ResolveCoreference query (normalizeMessages (messages req))
                (OPENAI_API_KEY env));
      let reformulatedQuery := or_else (output reformulatedResult) query in
      docs ← call (GetRelevantDocuments retriever reformulatedQuery);
      answer_from_documents req chat query reformulatedQuery docs
  end.

Definition agentic_stream_body (tm : gmap string Tool) (response : ChunkStream)
  : Prog unit :=
  gathered ← forward_chunks (chunks response) None;
  stream_end (stream_failure response);;
  match gathered ≫= tool_calls with
  | Some calls => dispatch tm calls
  | None => Ret ()
  end.

Definition agentic_branch (req : RequestBody) : Prog Response :=
  call (ClientConnect transport_command transport_args);;
  toolsResponse ← call ClientListTools;
  let mcpTools := map McpClientTool toolsResponse in
  llm ← call (CreateChatModel (model req) (family req));
  let llm := match mcpTools with [] => llm | _ => Bound mcpTools llm end in
  listed ← call McpServiceListTools;
  let normalizedTools := default [] listed in
  let llm :=
    match normalizedTools with
    | [] => llm
    | _ => if String.eqb (family req) anthropic then Bound normalizedTools llm
           else if instanceof_ChatOllama llm then Bound normalizedTools llm
           else llm
    end in
  if negb (truthy (stream req)) then
    response ← call (Invoke llm (MessagesInput (transformMessages (messages req))));
    Ret (RespJson (assistant_message (reply_content response) None))
  else
    response ← call (Stream llm (MessagesInput
                       (map (fun message => (role message, content message)) (messages req))));
    call SendStream;;
    agentic_stream_body (toolsMap normalizedTools) response;;
    Ret RespStream.

(** The handler: the branch is chosen by the truthiness of [knowledgebaseId]. *)
Definition handler (req : RequestBody) : Prog Response :=
  match knowledgebaseId req with
  | Some id => if negb (id =? 0) then knowledge_base_branch req id else agentic_branch req
  | None => agentic_branch req
  end.

End Handler.

(** ** Reading a trace *)

Definition lookup_of (ev : Event) : option Z :=
  match ev with
  | Called c _ => match c with FindUnique id => Some id | _ => None end
  end.

Definition status_of (ev : Event) : option (Z * string) :=
  match ev with
  | Called c _ => match c with SetResponseStatus code text => Some (code, text) | _ => None end
  end.

Definition coref_of (ev : Event) : option (string * Reply CorefResult) :=
  match ev with
  | @Called X c r =>
      match c in Call X return Reply X -> option (string * Reply CorefResult) with
      | ResolveCoreference query _ _ => fun r => Some (query, r)
      | _ => fun _ => None
      end r
  end.

Definition coref_history_of (ev : Event) : option (list BaseMessage) :=
  match ev with
  | Called c _ => match c with ResolveCoreference _ history _ => Some history | _ => None end
  end.

Definition retrieval_of (ev : Event) : option (string * Reply (list Document)) :=
  match ev with
  | @Called X c r =>
      match c in Call X return Reply X -> option (string * Reply (list Document)) with
      | GetRelevantDocuments _ query => fun r => Some (query, r)
      | _ => fun _ => None
      end r
  end.

Definition rerank_of (ev : Event)
  : option (RerankOptions * list Document * string * Reply (list Document)) :=
  match ev with
  | @Called X c r =>
      match c in Call X
            return Reply X -> option (RerankOptions * list Document * string * Reply (list Document))
      with
      | CompressDocuments o docs query => fun r => Some (o, docs, query, r)
      | _ => fun _ => None
      end r
  end.

Definition model_input_of (ev : Event) : option ModelInput :=
  match ev with
  | Called c _ =>
      match c with
      | Invoke _ input => Some input
      | Stream _ input => Some input
      | _ => None
      end
  end.

Definition model_reply_of (ev : Event) : option ModelReply :=
  match ev with
  | @Called X c r =>
      match c in Call X return Reply X -> option ModelReply with
      | Invoke _ _ => fun r => match r with Returns x => Some x | Raises _ => None end
      | _ => fun _ => None
      end r
  end.

Definition stream_reply_of (ev : Event) : option ChunkStream :=
  match ev with
  | @Called X c r =>
      match c in Call X return Reply X -> option ChunkStream with
      | Stream _ _ => fun r => match r with Returns x => Some x | Raises _ => None end
      | _ => fun _ => None
      end r
  end.

Definition registry_reply_of (ev : Event) : option (list Tool) :=
  match ev with
  | @Called X c r =>
      match c in Call X return Reply X -> option (list Tool) with
      | McpServiceListTools =>
          fun r => match r with Returns x => Some (default [] x) | Raises _ => None end
      | _ => fun _ => None
      end r
  end.

Definition tool_invocation_of (ev : Event) : option (Tool * ToolCall) :=
  match ev with
  | Called c _ => match c with ToolInvoke t tc => Some (t, tc) | _ => None end
  end.

(** An object counts as emitted when its [yield] or [enqueue] returned. *)
Definition emitted_of (ev : Event) : option OutboundEvent :=
  match ev with
  | @Called X c r =>
      match c in Call X return Reply X -> option OutboundEvent with
      | Enqueue e => fun r => match r with Returns _ => Some e | Raises _ => None end
      | _ => fun _ => None
      end r
  end.

(** The calls that embed, retrieve, rerank or run a model. *)
Definition is_engine_call (ev : Event) : bool :=
  match ev with
  | Called c _ =>
      match c with
      | CreateEmbeddings _ | CreateRetriever _ _ | CreateChatModel _ _
      | ResolveCoreference _ _ _ | GetRelevantDocuments _ _ | CompressDocuments _ _ _
      | Invoke _ _ | Stream _ _ | ToolInvoke _ _ => true
      | _ => false
      end
  end.

Definition lookups (t : list Event) : list Z := omap lookup_of t.
Definition status_calls (t : list Event) : list (Z * string) := omap status_of t.
Definition coref_calls (t : list Event) := omap coref_of t.
Definition coref_histories (t : list Event) := omap coref_history_of t.
Definition retrievals (t : list Event) := omap retrieval_of t.
Definition retrieval_queries (t : list Event) : list string := (retrievals t).*1.
Definition rerank_calls (t : list Event) := omap rerank_of t.
Definition model_inputs (t : list Event) : list ModelInput := omap model_input_of t.
Definition model_replies (t : list Event) : list ModelReply := omap model_reply_of t.
Definition stream_replies (t : list Event) : list ChunkStream := omap stream_reply_of t.
Definition registry_replies (t : list Event) : list (list Tool) := omap registry_reply_of t.
Definition tool_invocations (t : list Event) : list (Tool * ToolCall) := omap tool_invocation_of t.
Definition emitted (t : list Event) : list OutboundEvent := omap emitted_of t.

(** ** Scripted worlds, for the examples *)

Record Script := {
  sc_knowledgebase : Z -> option KnowledgeBase;
  sc_coref : string -> Reply CorefResult;
  sc_documents : string -> list Document;
  sc_rerank : RerankOptions -> list Document -> string -> Reply (list Document);
  sc_reply : ModelInput -> ModelReply;
  sc_stream : ModelInput -> ChunkStream;
  sc_client_tools : list ToolDescriptor;
  sc_registry : option (list Tool);
  sc_tool : Tool -> ToolCall -> Reply ToolResult
}.

Definition scripted_reply (sc : Script) {X : Type} (c : Call X) : Reply X :=
  match c in Call X return Reply X with
  | FindUnique id => Returns (sc_knowledgebase sc id)
  | SetResponseStatus _ _ => Returns ()
  | CreateEmbeddings _ => Returns (EmbeddingsRef 0)
  | CreateRetriever _ _ => Returns (RetrieverRef 0)
  | CreateChatModel _ _ => Returns (ChatModelRef 0 false)
  | ResolveCoreference query _ _ => sc_coref sc query
  | GetRelevantDocuments _ query => Returns (sc_documents sc query)
  | CompressDocuments o docs query => sc_rerank sc o docs query
  | Invoke _ input => Returns (sc_reply sc input)
  | Stream _ input => Returns (sc_stream sc input)
  | SetEventStreamResponse => Returns ()
  | SendStream => Returns ()
  | Enqueue _ => Returns ()
  | ClientConnect _ _ => Returns ()
  | ClientListTools => Returns (sc_client_tools sc)
  | McpServiceListTools => Returns (sc_registry sc)
  | ToolInvoke t tc => sc_tool sc t tc
  end.

Definition scripted (sc : Script) : World :=
  {| world_state := unit; respond := fun X c s => (scripted_reply sc c, s) |}.

Definition doc (text : string) : Document :=
  {| pageContent := text; metadata := EmptyString |}.

Definition user_says (text : string) : Message :=
  {| role := "user"; content := text; toolCallId := None; toolResult := false |}.

Definition assistant_says (text : string) : Message :=
  {| role := "assistant"; content := text; toolCallId := None; toolResult := false |}.

(** A reranker that keeps the first [topN] documents. *)
Definition keep_topN (o : RerankOptions) (docs : list Document) (query : string)
  : Reply (list Document) :=
  Returns (take (topN o) docs).

Definition plain_chunk (text : string) : Chunk :=
  {| chunk_content := Some (Text text); tool_calls := None |}.

Definition calls_chunk (calls : list ToolCall) : Chunk :=
  {| chunk_content := Some (Text EmptyString); tool_calls := Some calls |}.

(** A merge of chunks for the examples: texts are appended and the tool
    calls of both sides are kept in order. *)
Definition merge_chunks (a b : Chunk) : Chunk :=
  {| chunk_content :=
       match chunk_content a, chunk_content b with
       | Some (Text x), Some (Text y) => Some (Text (x +:+ y))
       | Some x, _ => Some x
       | None, y => y
       end;
     tool_calls :=
       match tool_calls a, tool_calls b with
       | Some x, Some y => Some (x ++ y)
       | Some x, None => Some x
       | None, y => y
       end |}.

Definition cohere_env : Env :=
  {| OPENAI_API_KEY := None;
     COHERE_API_KEY := Some "key";
     COHERE_BASE_URL := None;
     COHERE_MODEL := Some "rerank-english-v3.0" |}.

Definition plain_env : Env :=
  {| OPENAI_API_KEY := None;
     COHERE_API_KEY := None;
     COHERE_BASE_URL := None;
     COHERE_MODEL := None |}.

Definition library_script : Script :=
  {| sc_knowledgebase := fun id =>
       if id =? 7 then Some {| kb_id := 7; kb_name := "manuals"; kb_embedding := Some "nomic-embed-text" |}
       else None;
     sc_coref := fun query => Returns {| output := Some "What is the warranty of the X200 printer?" |};
     sc_documents := fun query => [doc "d1"; doc "d2"; doc "d3"; doc "d4"; doc "d5"];
     sc_rerank := keep_topN;
     sc_reply := fun input => {| reply_content := Some (Text "Two years."); reply_tool_calls := [] |};
     sc_stream := fun input => {| chunks := [plain_chunk "Two "; plain_chunk "years."]; stream_failure := None |};
     sc_client_tools := [];
     sc_registry := None;
     sc_tool := fun t tc => Raises (JsError "no tools") |}.

Definition warranty_request (s : JsValue) : RequestBody :=
  {| knowledgebaseId := Some 7;
     model := "llama3";
     family := "Ollama";
     messages := [user_says "Tell me about the X200 printer.";
                  assistant_says "It is a laser printer.";
                  user_says "What is its warranty?"];
     stream := s |}.

(** ** The vocabulary of the statements *)

(** Every call that a program can make satisfies [P], whatever the answers. *)
Inductive calls_only (P : forall X : Type, Call X -> Prop) {A : Type} : Prog A -> Prop :=
| calls_only_ret (a : A) : calls_only P (Ret a)
| calls_only_throw (e : Error) : calls_only P (Throw e)
| calls_only_vis (X : Type) (c : Call X) (k : X -> Prog A) :
    P X c -> (forall x, calls_only P (k x)) -> calls_only P (Vis c k).

(** The call of an event satisfies [P]. *)
Definition event_call (P : forall X : Type, Call X -> Prop) (ev : Event) : Prop :=
  match ev with
  | @Called X c _ => P X c
  end.

(** Any call but the knowledge-base lookup. *)
Definition not_lookup (X : Type) (c : Call X) : Prop :=
  match c with FindUnique _ => False | _ => True end.

(** The tool invocations that returned, each with its tool, call and result. *)
Definition tool_completion_of (ev : Event) : option (Tool * ToolCall * ToolResult) :=
  match ev with
  | @Called X c r =>
      match c in Call X return Reply X -> option (Tool * ToolCall * ToolResult) with
      | ToolInvoke t tc =>
          fun r => match r with Returns x => Some (t, tc, x) | Raises _ => None end
      | _ => fun _ => None
      end r
  end.

Definition tool_completions (t : list Event) : list (Tool * ToolCall * ToolResult) :=
  omap tool_completion_of t.

(** The message enqueued for a chunk of the agentic stream. *)
Definition text_delta (chunk : Chunk) : OutboundEvent :=
  MessageEvent "assistant" (chunk_content chunk).

(** The message enqueued for the result of a tool. *)
Definition tool_result_event (result : ToolResult) : OutboundEvent :=
  ToolResultEvent (tool_call_id result) (result_content result).

Definition is_tool_result (ev : OutboundEvent) : bool :=
  match ev with ToolResultEvent _ _ => true | _ => false end.

(** The call of the event returned: it did not raise. *)
Definition event_returned (ev : Event) : bool :=
  match ev with
  | Called _ (Returns _) => true
  | Called _ (Raises _) => false
  end.

(** In a list of emitted objects the tool results come last: whatever
    follows a tool result is a tool result. *)
Definition results_last (evs : list OutboundEvent) : Prop :=
  forall i j ev ev',
    evs !! i = Some ev -> evs !! j = Some ev' -> (i <= j)%nat ->
    is_tool_result ev = true -> is_tool_result ev' = true.

(** The gathered response after the chunks of a stream. *)
Definition gather (concat : Chunk -> Chunk -> Chunk) (gathered : option Chunk)
    (cs : list Chunk) : option Chunk :=
  foldl (fun acc chunk => Some (match acc with Some g => concat g chunk | None => chunk end))
        gathered cs.

(** The tool calls of a gathered response ([gathered?.tool_calls], none when
    it is missing). *)
Definition completed_calls (gathered : option Chunk) : list ToolCall :=
  default [] (gathered ≫= tool_calls).

(** The calls that the map resolves, each with its tool, in the order of
    the calls. *)
Definition resolved (tm : gmap string Tool) (calls : list ToolCall) : list (Tool * ToolCall) :=
  omap (fun toolCall => (fun tool => (tool, toolCall)) <$> tm !! name toolCall) calls.

(** The calls of the stream loops: enqueues, and tool invocations in the
    tool phase. *)
Definition enqueue_only (X : Type) (c : Call X) : Prop :=
  match c with Enqueue _ => True | _ => False end.

Definition tool_phase_only (X : Type) (c : Call X) : Prop :=
  match c with Enqueue _ | ToolInvoke _ _ => True | _ => False end.

(** The calls that [answer_from_documents] can make: the reranker gets the
    retrieved documents and the reformulated query, the model gets the
    template filled with the history and the original query. *)
Definition tail_call (env : Env) (req : RequestBody) (query reformulatedQuery : string)
    (docs : list Document) (X : Type) (c : Call X) : Prop :=
  match c with
  | CompressDocuments o d q => o = rerank_options env /\ d = docs /\ q = reformulatedQuery
  | Invoke _ input | Stream _ input =>
      exists ctx,
        input = PromptInput (SYSTEM_TEMPLATE ctx (serializeMessages (messages req)) query)
  | SetEventStreamResponse | SendStream | Enqueue _ => True
  | _ => False
  end.

Definition is_message (ev : OutboundEvent) : bool :=
  match ev with MessageEvent _ _ => true | _ => false end.

(** The messages that the knowledge-base stream yields for its chunks. *)
Definition yielded (cs : list Chunk) : list OutboundEvent :=
  omap (fun chunk => (fun c => MessageEvent "assistant" (Some c)) <$> chunk_content chunk) cs.

(** How far a run of the knowledge-base branch got: it stopped before the
    reformulation, the reformulation raised, the retrieval raised, or the
    documents were retrieved and the rest of the branch ran. *)
Inductive KbRun (env : Env) (w : World) (req : RequestBody) (t : list Event)
    (o : Outcome Response) : Prop :=
| kb_stopped_early :
    coref_calls t = [] -> retrievals t = [] -> model_inputs t = [] ->
    rerank_calls t = [] -> emitted t = [] ->
    (forall resp, o = Returned resp -> resp = RespUndefined) ->
    KbRun env w req t o
| kb_coref_raised (m : Message) (e : Error) :
    last (messages req) = Some m ->
    coref_calls t = [(content m, Raises e)] ->
    retrievals t = [] -> model_inputs t = [] -> rerank_calls t = [] -> emitted t = [] ->
    o = Thrown e ->
    KbRun env w req t o
| kb_retrieval_raised (m : Message) (res : CorefResult) (e : Error) :
    last (messages req) = Some m ->
    coref_calls t = [(content m, Returns res)] ->
    retrievals t = [(or_else (output res) (content m), Raises e)] ->
    model_inputs t = [] -> rerank_calls t = [] -> emitted t = [] ->
    o = Thrown e ->
    KbRun env w req t o
| kb_answered (m : Message) (res : CorefResult) (docs : list Document) (chat : ChatModel)
    (s : world_state w) (t' : list Event) (s' : world_state w) :
    last (messages req) = Some m ->
    run w (answer_from_documents env req chat (content m)
             (or_else (output res) (content m)) docs) s = (t', o, s') ->
    coref_calls t = [(content m, Returns res)] ->
    retrievals t = [(or_else (output res) (content m), Returns docs)] ->
    model_inputs t = model_inputs t' -> rerank_calls t = rerank_calls t' ->
    emitted t = emitted t' ->
    KbRun env w req t o.

(** A message that [normalizeMessages] keeps: a tool result, a user turn or
    an assistant turn. *)
Definition kept_by_normalizer (message : Message) : bool :=
  toolResult message
  || String.eqb (role message) "user"
  || String.eqb (role message) "assistant".

(** The operations of the calculator's schema. *)
Definition operations : list string := ["add"; "subtract"; "multiply"; "divide"].

(** The error of an event whose call raised. *)
Definition raised_error (ev : Event) : option Error :=
  match ev with
  | Called _ (Raises e) => Some e
  | Called _ (Returns _) => None
  end.

(** The calls to the MCP client, to the registry service and to a tool. *)
Definition is_mcp_call (ev : Event) : bool :=
  match ev with
  | Called c _ =>
      match c with
      | ClientConnect _ _ | ClientListTools | McpServiceListTools | ToolInvoke _ _ => true
      | _ => false
      end
  end.

(** The calls that only the knowledge-base branch makes. *)
Definition is_knowledge_base_call (ev : Event) : bool :=
  match ev with
  | Called c _ =>
      match c with
      | FindUnique _ | SetResponseStatus _ _ | CreateEmbeddings _ | CreateRetriever _ _
      | ResolveCoreference _ _ _ | GetRelevantDocuments _ _ | CompressDocuments _ _ _
      | SetEventStreamResponse => true
      | _ => false
      end
  end.

(** The calls that the agentic branch can make; the model gets the messages
    as pairs of role and content. *)
Definition agentic_call (req : RequestBody) (X : Type) (c : Call X) : Prop :=
  match c with
  | Invoke _ input | Stream _ input =>
      input = MessagesInput (transformMessages (messages req))
  | ClientConnect _ _ | ClientListTools | McpServiceListTools | CreateChatModel _ _
  | SendStream | Enqueue _ | ToolInvoke _ _ => True
  | _ => False
  end.

(** The calls of the knowledge-base branch up to the retrieval. *)
Definition kb_prefix_call (X : Type) (c : Call X) : Prop :=
  match c with
  | FindUnique _ | SetResponseStatus _ _ | CreateEmbeddings _ | CreateRetriever _ _
  | CreateChatModel _ _ | ResolveCoreference _ _ _ | GetRelevantDocuments _ _ => True
  | _ => False
  end.

(** Any call but those to the MCP client, the registry and the tools. *)
Definition kb_call (X : Type) (c : Call X) : Prop :=
  match c with
  | ClientConnect _ _ | ClientListTools | McpServiceListTools | ToolInvoke _ _ => False
  | _ => True
  end.

(** The knowledge-base branch once the documents are reranked: assemble
    the prompt, then answer in one piece or as a stream. *)
Definition answer_with (req : RequestBody) (chat : ChatModel) (query : string)
    (docs rerankedDocuments : list Document) : Prog Response :=
  let prompt :=
    PromptInput (SYSTEM_TEMPLATE (formatDocumentsAsString rerankedDocuments)
                   (serializeMessages (messages req)) query) in
  if negb (truthy (stream req)) then
    response ← call (Invoke chat prompt);
    Ret (RespJson (assistant_message (reply_content response) (Some docs)))
  else
    call SetEventStreamResponse;;
    response ← call (Stream chat prompt);
    call SendStream;;
    rag_stream_body response rerankedDocuments;;
    Ret RespStream.

(** The model that a call to the model is made on. *)
Definition called_model_of (ev : Event) : option ChatModel :=
  match ev with
  | Called c _ =>
      match c with
      | Invoke llm _ => Some llm
      | Stream llm _ => Some llm
      | _ => None
      end
  end.

(** The model that [createChatModel] returned. *)
Definition created_model_of (ev : Event) : option ChatModel :=
  match ev with
  | @Called X c r =>
      match c in Call X return Reply X -> option ChatModel with
      | CreateChatModel _ _ =>
          fun r => match r with Returns x => Some x | Raises _ => None end
      | _ => fun _ => None
      end r
  end.

(** The tools that the MCP client listed. *)
Definition client_listing_of (ev : Event) : option (list ToolDescriptor) :=
  match ev with
  | @Called X c r =>
      match c in Call X return Reply X -> option (list ToolDescriptor) with
      | ClientListTools =>
          fun r => match r with Returns x => Some x | Raises _ => None end
      | _ => fun _ => None
      end r
  end.

Definition called_models (t : list Event) : list ChatModel := omap called_model_of t.
Definition created_models (t : list Event) : list ChatModel := omap created_model_of t.
Definition client_listings (t : list Event) : list (list ToolDescriptor) :=
  omap client_listing_of t.

(** ** Worked requests *)

Definition orphan_tool_result : Message :=
  {| role := "user"; content := "42"; toolCallId := None; toolResult := true |}.

Definition empty_id_tool_result : Message :=
  {| role := "user"; content := "42"; toolCallId := Some EmptyString; toolResult := true |}.

Definition orphan_request : RequestBody :=
  {| knowledgebaseId := Some 7;
     model := "llama3";
     family := "Ollama";
     messages := [user_says "What is 6 times 7?"; orphan_tool_result];
     stream := JsBool false |}.

Definition unknown_request : RequestBody :=
  {| knowledgebaseId := Some 999999;
     model := "llama3";
     family := "Ollama";
     messages := [user_says "What is its warranty?"];
     stream := JsBool false |}.

Definition failing_coref_script : Script :=
  {| sc_knowledgebase := sc_knowledgebase library_script;
     sc_coref := fun query => Raises (JsError "reformulation service unavailable");
     sc_documents := sc_documents library_script;
     sc_rerank := keep_topN;
     sc_reply := sc_reply library_script;
     sc_stream := sc_stream library_script;
     sc_client_tools := [];
     sc_registry := None;
     sc_tool := sc_tool library_script |}.

Definition silent_coref_script : Script :=
  {| sc_knowledgebase := sc_knowledgebase library_script;
     sc_coref := fun query => Returns {| output := Some EmptyString |};
     sc_documents := sc_documents library_script;
     sc_rerank := keep_topN;
     sc_reply := sc_reply library_script;
     sc_stream := sc_stream library_script;
     sc_client_tools := [];
     sc_registry := None;
     sc_tool := sc_tool library_script |}.

Definition search_tool : Tool := RegistryTool "search" 1.
Definition fetch_tool : Tool := RegistryTool "fetch" 2.

Definition call_of (n id : string) : ToolCall :=
  {| name := n; call_id := Some id; args := "{}" |}.

Definition read_query : ToolDescriptor :=
  {| td_name := "read_query";
     td_description := "Execute a SELECT query on the SQLite database";
     td_inputSchema := "{}" |}.

Definition tools_script : Script :=
  {| sc_knowledgebase := fun id => None;
     sc_coref := fun query => Returns {| output := None |};
     sc_documents := fun query => [];
     sc_rerank := keep_topN;
     sc_reply := fun input =>
       {| reply_content := Some (Text "Let me look that up.");
          reply_tool_calls := [call_of "search" "call_1"] |};
     sc_stream := fun input =>
       {| chunks := [plain_chunk "Let me "; plain_chunk "look.";
                     calls_chunk [call_of "search" "call_1"; call_of "calculator" "call_2";
                                  call_of "read_query" "call_3"; call_of "fetch" "call_4"]];
          stream_failure := None |};
     sc_client_tools := [read_query];
     sc_registry := Some [search_tool; fetch_tool];
     sc_tool := fun t tc =>
       Returns {| tool_call_id := call_id tc; result_content := "result of " +:+ name tc |} |}.

(** A request whose [knowledgebaseId] is present and is 0. *)
Definition agentic_request (s : JsValue) : RequestBody :=
  {| knowledgebaseId := Some 0;
     model := "claude-3-5-sonnet";
     family := "Anthropic";
     messages := [user_says "What is 6 times 7?"];
     stream := s |}.

Definition scripted_run (sc : Script) (e : Env) (req : RequestBody) :=
  run (scripted sc) (handler merge_chunks "Anthropic" e req) ().

Definition system_says (text : string) : Message :=
  {| role := "system"; content := text; toolCallId := None; toolResult := false |}.

Definition empty_request : RequestBody :=
  {| knowledgebaseId := Some 7;
     model := "llama3";
     family := "Ollama";
     messages := [];
     stream := JsBool false |}.

Definition failing_rerank_script : Script :=
  {| sc_knowledgebase := sc_knowledgebase library_script;
     sc_coref := sc_coref library_script;
     sc_documents := sc_documents library_script;
     sc_rerank := fun o docs query => Raises (JsError "rerank service unavailable");
     sc_reply := sc_reply library_script;
     sc_stream := sc_stream library_script;
     sc_client_tools := [];
     sc_registry := None;
     sc_tool := sc_tool library_script |}.

(** The tools of [tools_script], with a search tool that raises. *)
Definition failing_tool_script : Script :=
  {| sc_knowledgebase := sc_knowledgebase tools_script;
     sc_coref := sc_coref tools_script;
     sc_documents := sc_documents tools_script;
     sc_rerank := keep_topN;
     sc_reply := sc_reply tools_script;
     sc_stream := sc_stream tools_script;
     sc_client_tools := [read_query];
     sc_registry := Some [search_tool; fetch_tool];
     sc_tool := fun t tc =>
       if String.eqb (name tc) "search" then Raises (JsError "search timed out")
       else Returns {| tool_call_id := call_id tc; result_content := "result of " +:+ name tc |} |}.

(** A world that answers as the script says, with a model of the Ollama
    class. *)
Definition ollama_reply (sc : Script) {X : Type} (c : Call X) : Reply X :=
  match c in Call X return Reply X with
  | CreateChatModel _ _ => Returns (ChatModelRef 0 true)
  | c' => scripted_reply sc c'
  end.

Definition ollama_world (sc : Script) : World :=
  {| world_state := unit; respond := fun X c s => (ollama_reply sc c, s) |}.

(** The tools of [tools_script], with an MCP client that lists none. *)
Definition registry_only_script : Script :=
  {| sc_knowledgebase := sc_knowledgebase tools_script;
     sc_coref := sc_coref tools_script;
     sc_documents := sc_documents tools_script;
     sc_rerank := keep_topN;
     sc_reply := sc_reply tools_script;
     sc_stream := sc_stream tools_script;
     sc_client_tools := [];
     sc_registry := Some [search_tool; fetch_tool];
     sc_tool := sc_tool tools_script |}.

Definition ollama_request (s : JsValue) : RequestBody :=
  {| knowledgebaseId := None;
     model := "llama3";
     family := "Ollama";
     messages := [user_says "What is 6 times 7?"];
     stream := s |}.

(** ** Running a sequence, and programs whose calls all satisfy a property *)

Section Running.

Variable w : World.

Lemma run_bind {A B : Type} (m : Prog A) (f : A -> Prog B) (s : world_state w) :
  run w (bind m f) s =
    match run w m s with
    | (t, Returned a, s') => let '(t', o, s'') := run w (f a) s' in (t ++ t', o, s'')
    | (t, Thrown e, s') => (t, Thrown e, s')
    end.
Proof.
  revert s. induction m as [a | e | X c k IH]; intros s; simpl.
  - destruct (run w (f a) s) as [[t o] s']. reflexivity.
  - reflexivity.
  - destruct (respond w X c s) as [[x | e] s1]; simpl.
    + rewrite IH. destruct (run w (k x) s1) as [[t [a | e]] s2]; simpl.
      * destruct (run w (f a) s2) as [[t' o'] s3]. reflexivity.
      * reflexivity.
    + reflexivity.
Qed.

Lemma run_mbind {A B : Type} (m : Prog A) (f : A -> Prog B) (s : world_state w) :
  run w (m ≫= f) s =
    match run w m s with
    | (t, Returned a, s') => let '(t', o, s'') := run w (f a) s' in (t ++ t', o, s'')
    | (t, Thrown e, s') => (t, Thrown e, s')
    end.
Proof. apply run_bind. Qed.

End Running.

Lemma calls_only_bind (P : forall X : Type, Call X -> Prop) {A B : Type}
    (m : Prog A) (f : A -> Prog B) :
  calls_only P m -> (forall a, calls_only P (f a)) -> calls_only P (bind m f).
Proof.
  intros Hm Hf. induction Hm as [a | e | X c k Hc Hk IH]; simpl.
  - apply Hf.
  - constructor.
  - constructor; [exact Hc | exact IH].
Qed.

Lemma calls_only_call (P : forall X : Type, Call X -> Prop) {X : Type} (c : Call X) :
  P X c -> calls_only P (call c).
Proof. intros Hc. constructor; [exact Hc | intros x; constructor]. Qed.

Lemma run_calls_only (P : forall X : Type, Call X -> Prop) (w : World) {A : Type}
    (p : Prog A) (s : world_state w) :
  calls_only P p -> Forall (event_call P) (trace_of (run w p s)).
Proof.
  intros Hp. revert s. induction Hp as [a | e | X c k Hc Hk IH]; intros s; simpl.
  - constructor.
  - constructor.
  - destruct (respond w X c s) as [[x | e] s1].
    + specialize (IH x s1). destruct (run w (k x) s1) as [[t o] s2].
      unfold trace_of in *. simpl in *. constructor; [exact Hc | exact IH].
    + unfold trace_of. simpl. constructor; [exact Hc | constructor].
Qed.

(** A projection that answers nothing on the calls of a trace reads
    nothing from it. *)
Lemma omap_none_on {B : Type} (P : forall X : Type, Call X -> Prop) (f : Event -> option B)
    (t : list Event) :
  (forall ev, event_call P ev -> f ev = None) ->
  Forall (event_call P) t -> omap f t = [].
Proof.
  intros Hf Ht. induction Ht as [| ev t Hev _ IH]; simpl.
  - reflexivity.
  - rewrite (Hf ev Hev). exact IH.
Qed.

(** ** The calculator tool *)

(** C8: the calculator applied to divide, 6 and 3 returns the string 2, and
    applied to divide, 1 and 0 it returns the string Infinity and does not
    throw: the division is the division of doubles, with no test of the
    divisor. *)
Theorem calculator_divide :
  calculatorTool "divide" 6 3 = Returns "2"
  /\ calculatorTool "divide" 1 0 = Returns "Infinity".
Proof. split; vm_compute; reflexivity. Qed.

Example calculator_other_operations :
  calculatorTool "add" 0.1 0.2 = Returns "0.30000000000000004"
  /\ calculatorTool "subtract" 1 0.9 = Returns "0.09999999999999998"
  /\ calculatorTool "multiply" 1e21 1 = Returns "1e+21"
  /\ calculatorTool "divide" 0 0 = Returns "NaN"
  /\ calculatorTool "divide" (-1) 0 = Returns "-Infinity"
  /\ calculatorTool "modulo" 1 2 = Raises (JsError "Invalid operation.").
Proof. repeat split; vm_compute; reflexivity. Qed.

(** ** The message normalizer *)

Lemma foldl_push_message (acc : list BaseMessage) (messages : list Message) :
  foldl push_message acc messages = acc ++ foldl push_message [] messages.
Proof.
  revert acc. induction messages as [| m ms IH]; intros acc; simpl.
  - by rewrite app_nil_r.
  - rewrite (IH (push_message acc m)), (IH (push_message [] m)).
    rewrite app_assoc. f_equal.
    unfold push_message.
    repeat case_match; simpl; by rewrite ?app_nil_r.
Qed.

Lemma normalizeMessages_app (l1 l2 : list Message) :
  normalizeMessages (l1 ++ l2) = normalizeMessages l1 ++ normalizeMessages l2.
Proof.
  unfold normalizeMessages. rewrite foldl_app. apply foldl_push_message.
Qed.

Lemma normalizeMessages_cons (m : Message) (ms : list Message) :
  normalizeMessages (m :: ms) = push_message [] m ++ normalizeMessages ms.
Proof.
  unfold normalizeMessages. simpl. apply foldl_push_message.
Qed.

(** C7, as the code has it: a message marked as a tool result becomes a
    tool-result message that carries its content and its toolCallId as they
    are, whether the id is present, absent or empty, at its place among the
    normalized messages; the normalizer has no failing path. *)
Theorem normalizeMessages_tool_result (before after : list Message) (m : Message) :
  toolResult m = true ->
  normalizeMessages (before ++ m :: after) =
    normalizeMessages before ++ ToolMessage (content m) (toolCallId m) :: normalizeMessages after.
Proof.
  intros Hm. rewrite normalizeMessages_app, normalizeMessages_cons.
  unfold push_message. rewrite Hm. reflexivity.
Qed.

Lemma normalizeMessages_tool_result_witness :
  toolResult orphan_tool_result = true
  /\ normalizeMessages ([user_says "What is 6 times 7?"] ++ orphan_tool_result :: []) =
       normalizeMessages [user_says "What is 6 times 7?"]
         ++ ToolMessage (content orphan_tool_result) (toolCallId orphan_tool_result)
         :: normalizeMessages [].
Proof.
  split; [reflexivity |].
  apply (normalizeMessages_tool_result [user_says "What is 6 times 7?"] [] orphan_tool_result).
  reflexivity.
Defined.

(** C7 fails on the code: a tool result without an id, or with an empty
    one, is normalized to a tool-result message, and the request built on
    it runs to its answer. *)
Lemma normalizer_keeps_orphan_tool_result :
  normalizeMessages [orphan_tool_result] = [ToolMessage "42" None]
  /\ normalizeMessages [empty_id_tool_result] = [ToolMessage "42" (Some EmptyString)]
  /\ coref_histories (trace_of (run (scripted library_script)
        (handler merge_chunks "Anthropic" plain_env orphan_request) ())) =
     [[HumanMessage "What is 6 times 7?"; ToolMessage "42" None]]
  /\ outcome_of (run (scripted library_script)
        (handler merge_chunks "Anthropic" plain_env orphan_request) ()) =
     Returned (RespJson (assistant_message (Some (Text "Two years."))
        (Some [doc "d1"; doc "d2"; doc "d3"; doc "d4"; doc "d5"]))).
Proof. repeat split; vm_compute; reflexivity. Qed.

(** ** Which calls each part of the handler can make *)

Ltac run_call :=
  match goal with
  | |- context [respond ?w ?X ?c ?s] =>
      let x := fresh "x" in
      let e := fresh "e" in
      let s' := fresh "s" in
      destruct (respond w X c s) as [[x | e] s'] eqn:?; simpl
  end.

Section Calls.

Variable P : forall X : Type, Call X -> Prop.
Hypothesis P_enqueue : forall ev, P unit (Enqueue ev).

Lemma stream_end_calls (failure : option string) : calls_only P (stream_end failure).
Proof. destruct failure; constructor. Qed.

Lemma yield_chunks_calls (cs : list Chunk) : calls_only P (yield_chunks cs).
Proof.
  induction cs as [| chunk rest IH]; simpl.
  - constructor.
  - destruct (chunk_content chunk); simpl.
    + constructor; [apply P_enqueue | intros _; exact IH].
    + exact IH.
Qed.

Lemma forward_chunks_calls (concat : Chunk -> Chunk -> Chunk) (cs : list Chunk)
    (gathered : option Chunk) :
  calls_only P (forward_chunks concat cs gathered).
Proof.
  revert gathered. induction cs as [| chunk rest IH]; intros gathered; simpl.
  - constructor.
  - constructor; [apply P_enqueue | intros _; apply IH].
Qed.

Hypothesis P_tool : forall t c, P ToolResult (ToolInvoke t c).

Lemma dispatch_calls (tm : gmap string Tool) (calls : list ToolCall) :
  calls_only P (dispatch tm calls).
Proof.
  induction calls as [| toolCall rest IH]; simpl.
  - constructor.
  - destruct (tm !! name toolCall); simpl.
    + constructor; [apply P_tool | intros result].
      constructor; [apply P_enqueue | intros _; exact IH].
    + exact IH.
Qed.

Lemma agentic_stream_body_calls (concat : Chunk -> Chunk -> Chunk)
    (tm : gmap string Tool) (response : ChunkStream) :
  calls_only P (agentic_stream_body concat tm response).
Proof.
  unfold agentic_stream_body. apply calls_only_bind.
  - apply forward_chunks_calls.
  - intros gathered. apply calls_only_bind.
    + apply stream_end_calls.
    + intros _. destruct (gathered ≫= tool_calls); [apply dispatch_calls | constructor].
Qed.

End Calls.

(** ** The dispatch of the handler *)

Section Dispatch.

Variable concat : Chunk -> Chunk -> Chunk.
Variable anthropic : string.
Variable env : Env.
Variable w : World.

Lemma handler_truthy (req : RequestBody) (id : Z) :
  knowledgebaseId req = Some id -> id <> 0 ->
  handler concat anthropic env req = knowledge_base_branch env req id.
Proof.
  intros Hid Hnz. unfold handler. rewrite Hid.
  destruct (Z.eqb_spec id 0) as [-> | _]; [done | reflexivity].
Qed.

Lemma handler_falsy (req : RequestBody) :
  truthy_id (knowledgebaseId req) = false ->
  handler concat anthropic env req = agentic_branch concat anthropic req.
Proof.
  unfold handler, truthy_id. destruct (knowledgebaseId req) as [id |]; [| reflexivity].
  destruct (id =? 0); [reflexivity | discriminate].
Qed.

Lemma agentic_branch_no_lookup (req : RequestBody) :
  calls_only not_lookup (agentic_branch concat anthropic req).
Proof.
  unfold agentic_branch. simpl.
  constructor; [exact I | intros _].
  constructor; [exact I | intros toolsResponse].
  constructor; [exact I | intros llm].
  constructor; [exact I | intros listed].
  destruct (negb (truthy (stream req))); simpl.
  - constructor; [exact I | intros response]. constructor.
  - constructor; [exact I | intros response].
    constructor; [exact I | intros _].
    apply calls_only_bind; [| intros _; constructor].
    apply agentic_stream_body_calls; intros; exact I.
Qed.


(** C9: the branch is chosen by truthiness.  A request whose
    knowledgebaseId is 0, absent or null runs the agentic branch, and no
    knowledge-base lookup is made, whatever the collaborators answer. *)
Theorem falsy_id_takes_agentic_branch (req : RequestBody) :
  truthy_id (knowledgebaseId req) = false ->
  handler concat anthropic env req = agentic_branch concat anthropic req
  /\ forall s, lookups (trace_of (run w (handler concat anthropic env req) s)) = [].
Proof.
  intros Hfalsy. rewrite (handler_falsy req Hfalsy). split; [reflexivity |].
  intros s. apply (omap_none_on not_lookup).
  - intros [X c r] Hc. destruct c; simpl in *; done.
  - apply run_calls_only, agentic_branch_no_lookup.
Qed.

(** C6, as the code has it: on the agentic branch without streaming, the
    model is invoked at most once, no tool is looked up or invoked even
    when the reply carries tool calls, and the body returned is the content
    of that one reply, with no evidence documents; the request returns that
    body whenever no collaborator raises. *)
Theorem agentic_sync_single_turn (req : RequestBody) (s : world_state w) :
  truthy_id (knowledgebaseId req) = false ->
  truthy (stream req) = false ->
  tool_invocations (trace_of (run w (handler concat anthropic env req) s)) = []
  /\ (length (model_inputs (trace_of (run w (handler concat anthropic env req) s))) <= 1)%nat
  /\ (Forall (fun ev => event_returned ev = true)
         (trace_of (run w (handler concat anthropic env req) s)) ->
       exists resp, outcome_of (run w (handler concat anthropic env req) s) = Returned resp)
  /\ forall resp, outcome_of (run w (handler concat anthropic env req) s) = Returned resp ->
       exists reply,
         model_replies (trace_of (run w (handler concat anthropic env req) s)) = [reply]
         /\ resp = RespJson (assistant_message (reply_content reply) None).
Proof.
  intros Hfalsy Hsync. rewrite (handler_falsy req Hfalsy).
  unfold agentic_branch. rewrite Hsync. simpl.
  unfold trace_of, outcome_of.
  repeat (run_call;
          [| split; [reflexivity |]; split; [simpl; lia |]; split;
             [intros Hall; repeat (apply Forall_cons in Hall as [? Hall]); discriminate
             | discriminate]]).
  split; [reflexivity |]. split; [simpl; lia |]. split; [by eexists |].
  intros resp [= <-]. eexists. split; reflexivity.
Qed.

End Dispatch.

(** ** The tool catalog *)

Lemma toolsMap_foldl (normalizedTools : list Tool) :
  toolsMap normalizedTools = foldl assign_tool ∅ normalizedTools.
Proof. destruct normalizedTools; reflexivity. Qed.

Lemma toolsMap_lookup_last (normalizedTools : list Tool) (n : string) :
  toolsMap normalizedTools !! n =
    last (filter (fun tool => tool_name_of tool = n) normalizedTools).
Proof.
  rewrite toolsMap_foldl.
  induction normalizedTools as [| tool tools IH] using rev_ind.
  - reflexivity.
  - rewrite foldl_app, filter_app. simpl. unfold assign_tool at 1.
    rewrite lookup_insert. rewrite filter_cons, filter_nil.
    destruct (decide (tool_name_of tool = n)) as [Heq | Hne].
    + by rewrite last_snoc.
    + by rewrite app_nil_r.
Qed.

Lemma toolsMap_sound (normalizedTools : list Tool) (n : string) (tool : Tool) :
  toolsMap normalizedTools !! n = Some tool ->
  tool ∈ normalizedTools /\ tool_name_of tool = n.
Proof.
  rewrite toolsMap_lookup_last. intros Hlast.
  apply last_Some_elem_of in Hlast.
  by apply list_elem_of_filter in Hlast as [? ?].
Qed.

Lemma toolsMap_complete (normalizedTools : list Tool) (tool : Tool) :
  tool ∈ normalizedTools ->
  exists tool', toolsMap normalizedTools !! tool_name_of tool = Some tool'.
Proof.
  intros Hin. rewrite toolsMap_lookup_last.
  destruct (last (filter (fun t => tool_name_of t = tool_name_of tool) normalizedTools))
    as [tool' |] eqn:Hlast; [by exists tool' |].
  apply last_None in Hlast.
  assert (tool ∈ filter (fun t => tool_name_of t = tool_name_of tool) normalizedTools) as Hf
    by (by apply list_elem_of_filter).
  rewrite Hlast in Hf. by apply elem_of_nil in Hf.
Qed.


(** ** The agentic stream *)

(** When the map knows the name of every call, every call is resolved,
    and in the order of the calls. *)
Lemma resolved_all_known (tm : gmap string Tool) (calls : list ToolCall) :
  Forall (fun toolCall => is_Some (tm !! name toolCall)) calls ->
  (resolved tm calls).*2 = calls.
Proof.
  induction 1 as [| toolCall rest [tool Htool] _ IH]; [reflexivity |].
  unfold resolved in *. simpl. rewrite Htool. simpl. f_equal. exact IH.
Qed.

(** A call whose name the map does not know is passed over. *)
Lemma resolved_unknown (tm : gmap string Tool) (toolCall : ToolCall) (calls : list ToolCall) :
  tm !! name toolCall = None ->
  resolved tm (toolCall :: calls) = resolved tm calls.
Proof. intros Hnone. unfold resolved. simpl. by rewrite Hnone. Qed.

Lemma results_last_app (l1 l2 : list OutboundEvent) :
  Forall (fun ev => is_tool_result ev = false) l1 ->
  Forall (fun ev => is_tool_result ev = true) l2 ->
  results_last (l1 ++ l2).
Proof.
  intros H1 H2 i j ev ev' Hi Hj Hij Hev.
  destruct (decide (i < length l1)%nat) as [Hlt | Hge].
  - rewrite lookup_app_l in Hi by exact Hlt.
    rewrite Forall_lookup in H1. rewrite (H1 i ev Hi) in Hev. discriminate.
  - rewrite lookup_app_r in Hj by lia.
    rewrite Forall_lookup in H2. exact (H2 _ ev' Hj).
Qed.

Lemma deltas_then_results (cs : list Chunk) (rs : list (Tool * ToolCall * ToolResult)) :
  results_last ((text_delta <$> cs) ++ ((fun c => tool_result_event c.2) <$> rs)).
Proof.
  apply results_last_app.
  - apply Forall_fmap, Forall_true. done.
  - apply Forall_fmap, Forall_true. done.
Qed.

Section AgenticStream.

Variable concat : Chunk -> Chunk -> Chunk.
Variable w : World.

Lemma run_forward_chunks (cs : list Chunk) (g : option Chunk) (s : world_state w)
    (t : list Event) (o : Outcome (option Chunk)) (s' : world_state w) :
  run w (forward_chunks concat cs g) s = (t, o, s') ->
  Forall (event_call enqueue_only) t
  /\ forall g', o = Returned g' ->
       g' = gather concat g cs /\ emitted t = (text_delta <$> cs).
Proof.
  revert g s t o s'. induction cs as [| chunk rest IH]; intros g s t o s'; simpl.
  - intros [= <- <- <-]. split; [constructor |]. by intros g' [= <-].
  - destruct (respond w unit (Enqueue (MessageEvent "assistant" (chunk_content chunk))) s)
      as [[[] | e] s1].
    + destruct (run w (forward_chunks concat rest
                  (Some match g with Some g0 => concat g0 chunk | None => chunk end)) s1)
        as [[t1 o1] s2] eqn:Hrest.
      intros [= <- <- <-]. destruct (IH _ _ _ _ _ Hrest) as [Hcalls Hret].
      split; [constructor; [exact I | exact Hcalls] |].
      intros g' Ho. destruct (Hret g' Ho) as [-> Hem].
      split; [reflexivity |]. unfold emitted in *. simpl. f_equal. exact Hem.
    + intros [= <- <- <-]. split; [repeat constructor | discriminate].
Qed.

Lemma run_dispatch (tm : gmap string Tool) (calls : list ToolCall) (s : world_state w)
    (t : list Event) (o : Outcome unit) (s' : world_state w) :
  run w (dispatch tm calls) s = (t, o, s') ->
  Forall (event_call tool_phase_only) t
  /\ (o = Returned () ->
        (tool_completions t).*1 = resolved tm calls
        /\ emitted t = ((fun c => tool_result_event c.2) <$> tool_completions t)).
Proof.
  revert s t o s'. induction calls as [| toolCall rest IH]; intros s t o s'; simpl.
  - intros [= <- <- <-]. split; [constructor | done].
  - unfold resolved. simpl. destruct (tm !! name toolCall) as [tool |]; simpl.
    + destruct (respond w ToolResult (ToolInvoke tool toolCall) s) as [[result | e] s1].
      * destruct (respond w unit
                    (Enqueue (ToolResultEvent (tool_call_id result) (result_content result))) s1)
          as [[[] | e] s2].
        -- destruct (run w (dispatch tm rest) s2) as [[t1 o1] s3] eqn:Hrest.
           intros [= <- <- <-]. destruct (IH _ _ _ _ Hrest) as [Hcalls Hret].
           split; [repeat (constructor; [exact I |]); exact Hcalls |].
           intros Ho. destruct (Hret Ho) as [Hres Hem].
           unfold tool_completions, emitted in *. simpl.
           split; f_equal; [exact Hres | exact Hem].
        -- intros [= <- <- <-]. split; [repeat constructor | discriminate].
      * intros [= <- <- <-]. split; [repeat constructor | discriminate].
    + apply IH.
Qed.

Lemma enqueue_only_reads (t : list Event) :
  Forall (event_call enqueue_only) t ->
  tool_completions t = [] /\ stream_replies t = [] /\ registry_replies t = [].
Proof.
  intros Ht. repeat split; apply (omap_none_on enqueue_only); try exact Ht;
    intros [X c r] Hc; destruct c; simpl in *; done.
Qed.

Lemma tool_phase_only_reads (t : list Event) :
  Forall (event_call tool_phase_only) t ->
  stream_replies t = [] /\ registry_replies t = [].
Proof.
  intros Ht. repeat split; apply (omap_none_on tool_phase_only); try exact Ht;
    intros [X c r] Hc; destruct c; simpl in *; done.
Qed.

Lemma run_agentic_stream_body (tm : gmap string Tool) (response : ChunkStream)
    (s : world_state w) (t : list Event) (s' : world_state w) :
  run w (agentic_stream_body concat tm response) s = (t, Returned (), s') ->
  stream_replies t = [] /\ registry_replies t = []
  /\ (tool_completions t).*1 =
       resolved tm (completed_calls (gather concat None (chunks response)))
  /\ emitted t =
       (text_delta <$> chunks response)
         ++ ((fun c => tool_result_event c.2) <$> tool_completions t).
Proof.
  unfold agentic_stream_body. unfold mbind at 1, prog_bind. rewrite run_bind.
  destruct (run w (forward_chunks concat (chunks response) None) s)
    as [[t1 [g |e]] s1] eqn:Hfwd; [| discriminate].
  destruct (run_forward_chunks _ _ _ _ _ _ Hfwd) as [Hcalls1 Hret1].
  destruct (Hret1 g eq_refl) as [-> Hem1].
  destruct (enqueue_only_reads t1 Hcalls1) as (Hc1 & Hs1 & Hr1).
  unfold mbind at 1, prog_bind. rewrite run_bind.
  destruct (stream_failure response) as [msg |]; simpl; [discriminate |].
  unfold completed_calls.
  destruct (gather concat None (chunks response) ≫= tool_calls) as [calls |]; simpl.
  - destruct (run w (dispatch tm calls) s1) as [[t2 o2] s2] eqn:Hdisp.
    intros [= <- -> <-]. destruct (run_dispatch _ _ _ _ _ _ Hdisp) as [Hcalls2 Hret2].
    destruct (Hret2 eq_refl) as [Hres Hem2].
    destruct (tool_phase_only_reads t2 Hcalls2) as (Hs2 & Hr2).
    unfold tool_completions, stream_replies, registry_replies, emitted in *.
    rewrite !omap_app, Hc1, Hs1, Hr1, Hs2, Hr2, Hem1, Hem2. simpl. done.
  - intros [= <- <-]. rewrite app_nil_r.
    unfold tool_completions, stream_replies, registry_replies, emitted in *.
    rewrite Hc1, Hs1, Hr1, Hem1. simpl. by rewrite app_nil_r.
Qed.

Lemma forward_chunks_emits_messages (cs : list Chunk) (g : option Chunk) (s : world_state w) :
  Forall (fun ev => is_tool_result ev = false)
    (emitted (trace_of (run w (forward_chunks concat cs g) s))).
Proof.
  revert g s. induction cs as [| chunk rest IH]; intros g s; simpl.
  - constructor.
  - destruct (respond w unit (Enqueue (MessageEvent "assistant" (chunk_content chunk))) s)
      as [[[] | e] s1].
    + specialize (IH (Some match g with Some g0 => concat g0 chunk | None => chunk end) s1).
      destruct (run w (forward_chunks concat rest
                  (Some match g with Some g0 => concat g0 chunk | None => chunk end)) s1)
        as [[t1 o1] s2].
      unfold emitted, trace_of in *. simpl in *. by constructor.
    + constructor.
Qed.

Lemma dispatch_emits_results (tm : gmap string Tool) (calls : list ToolCall)
    (s : world_state w) :
  Forall (fun ev => is_tool_result ev = true)
    (emitted (trace_of (run w (dispatch tm calls) s))).
Proof.
  revert s. induction calls as [| toolCall rest IH]; intros s; simpl.
  - constructor.
  - destruct (tm !! name toolCall) as [tool |]; simpl; [| apply IH].
    destruct (respond w ToolResult (ToolInvoke tool toolCall) s) as [[result | e] s1];
      [| constructor].
    destruct (respond w unit
                (Enqueue (ToolResultEvent (tool_call_id result) (result_content result))) s1)
      as [[[] | e] s2]; [| constructor].
    specialize (IH s2). destruct (run w (dispatch tm rest) s2) as [[t1 o1] s3].
    unfold emitted, trace_of in *. simpl in *. by constructor.
Qed.

(** Whether the stream ends or breaks off, no message of the model follows
    a tool result. *)
Lemma agentic_stream_body_results_last (tm : gmap string Tool) (response : ChunkStream)
    (s : world_state w) :
  results_last (emitted (trace_of (run w (agentic_stream_body concat tm response) s))).
Proof.
  unfold agentic_stream_body. rewrite run_mbind.
  pose proof (forward_chunks_emits_messages (chunks response) None s) as Hfwd.
  destruct (run w (forward_chunks concat (chunks response) None) s) as [[t1 [g | e]] s1].
  2: { unfold trace_of in *. simpl in *.
       rewrite <- (app_nil_r (emitted t1)). apply results_last_app; [exact Hfwd | constructor]. }
  rewrite run_mbind. destruct (stream_failure response) as [msg |]; simpl.
  { unfold trace_of in *. simpl in *. rewrite app_nil_r.
    rewrite <- (app_nil_r (emitted t1)). apply results_last_app; [exact Hfwd | constructor]. }
  destruct (g ≫= tool_calls) as [calls |]; simpl.
  - pose proof (dispatch_emits_results tm calls s1) as Hdisp.
    destruct (run w (dispatch tm calls) s1) as [[t2 o2] s2].
    unfold trace_of, emitted in *. simpl in *. rewrite omap_app.
    apply results_last_app; [exact Hfwd | exact Hdisp].
  - unfold trace_of in *. simpl in *. rewrite app_nil_r.
    rewrite <- (app_nil_r (emitted t1)). apply results_last_app; [exact Hfwd | constructor].
Qed.

Lemma forward_chunks_returns (cs : list Chunk) (g : option Chunk) (s : world_state w) :
  Forall (fun ev => event_returned ev = true)
    (trace_of (run w (forward_chunks concat cs g) s)) ->
  exists g', outcome_of (run w (forward_chunks concat cs g) s) = Returned g'.
Proof.
  revert g s. induction cs as [| chunk rest IH]; intros g s; simpl.
  - by eexists.
  - destruct (respond w unit (Enqueue (MessageEvent "assistant" (chunk_content chunk))) s)
      as [[[] | e] s1].
    + specialize (IH (Some match g with Some g0 => concat g0 chunk | None => chunk end) s1).
      destruct (run w (forward_chunks concat rest
                  (Some match g with Some g0 => concat g0 chunk | None => chunk end)) s1)
        as [[t1 o1] s2].
      unfold trace_of, outcome_of in *. simpl in *.
      intros Hall. apply Forall_cons in Hall as [_ Hall]. by apply IH.
    + unfold trace_of. simpl. intros Hall. apply Forall_cons in Hall as [Hraised _].
      discriminate.
Qed.

Lemma dispatch_returns (tm : gmap string Tool) (calls : list ToolCall) (s : world_state w) :
  Forall (fun ev => event_returned ev = true) (trace_of (run w (dispatch tm calls) s)) ->
  outcome_of (run w (dispatch tm calls) s) = Returned ().
Proof.
  revert s. induction calls as [| toolCall rest IH]; intros s; simpl.
  - reflexivity.
  - destruct (tm !! name toolCall) as [tool |]; simpl; [| apply IH].
    destruct (respond w ToolResult (ToolInvoke tool toolCall) s) as [[result | e] s1].
    2: { unfold trace_of. simpl. intros Hall. apply Forall_cons in Hall as [Hraised _].
         discriminate. }
    destruct (respond w unit
                (Enqueue (ToolResultEvent (tool_call_id result) (result_content result))) s1)
      as [[[] | e] s2].
    2: { unfold trace_of. simpl. intros Hall. apply Forall_cons in Hall as [_ Hall].
         apply Forall_cons in Hall as [Hraised _]. discriminate. }
    specialize (IH s2). destruct (run w (dispatch tm rest) s2) as [[t1 o1] s3].
    unfold trace_of, outcome_of in *. simpl in *.
    intros Hall. apply Forall_cons in Hall as [_ Hall].
    apply Forall_cons in Hall as [_ Hall]. by apply IH.
Qed.

(** The stream body ends normally when the model stream ends without an
    error and no call raises. *)
Lemma agentic_stream_body_returns (tm : gmap string Tool) (response : ChunkStream)
    (s : world_state w) :
  stream_failure response = None ->
  Forall (fun ev => event_returned ev = true)
    (trace_of (run w (agentic_stream_body concat tm response) s)) ->
  outcome_of (run w (agentic_stream_body concat tm response) s) = Returned ().
Proof.
  intros Hend. unfold agentic_stream_body. rewrite run_mbind.
  pose proof (forward_chunks_returns (chunks response) None s) as Hfwd.
  destruct (run w (forward_chunks concat (chunks response) None) s) as [[t1 [g | e]] s1].
  2: { unfold trace_of, outcome_of in *. simpl in *. intros Hall.
       destruct (Hfwd Hall) as [g' Hg']. discriminate. }
  rewrite run_mbind, Hend. simpl.
  destruct (g ≫= tool_calls) as [calls |]; simpl; [| reflexivity].
  pose proof (dispatch_returns tm calls s1) as Hdisp.
  destruct (run w (dispatch tm calls) s1) as [[t2 o2] s2].
  unfold trace_of, outcome_of in *. simpl in *.
  intros Hall. apply Forall_app in Hall as [_ Hall]. by apply Hdisp.
Qed.

End AgenticStream.

Section AgenticHandler.

Variable concat : Chunk -> Chunk -> Chunk.
Variable anthropic : string.
Variable env : Env.
Variable w : World.


(** X21: on every run of the agentic branch, also one whose stream breaks
    off on an error, no message chunk is written after a tool result. *)
Lemma agentic_results_last (req : RequestBody) (s : world_state w) :
  truthy_id (knowledgebaseId req) = false ->
  results_last (emitted (trace_of (run w (handler concat anthropic env req) s))).
Proof.
  intros Hfalsy. rewrite (handler_falsy concat anthropic env req Hfalsy).
  unfold agentic_branch. simpl. unfold trace_of.
  do 4 (run_call; [| by intros i j ev ev' Hi]).
  destruct (truthy (stream req)); simpl.
  2: { run_call; by intros i j ev ev' Hi. }
  do 2 (run_call; [| by intros i j ev ev' Hi]).
  rewrite run_mbind.
  match goal with
  | |- context [run w (agentic_stream_body concat ?tm ?response) ?s0] =>
      pose proof (agentic_stream_body_results_last concat w tm response s0) as Hbody;
      destruct (run w (agentic_stream_body concat tm response) s0) as [[t [[] | e]] s6]
  end; unfold trace_of, emitted in *; simpl in *; rewrite ?app_nil_r; exact Hbody.
Qed.


End AgenticHandler.

(** ** The knowledge-base branch *)

Lemma rag_stream_body_calls (P : forall X : Type, Call X -> Prop)
    (response : ChunkStream) (rerankedDocuments : list Document) :
  (forall ev, P unit (Enqueue ev)) ->
  calls_only P (rag_stream_body response rerankedDocuments).
Proof.
  intros HP. unfold rag_stream_body. apply calls_only_bind.
  - by apply yield_chunks_calls.
  - intros _. apply calls_only_bind.
    + apply stream_end_calls.
    + intros _. by apply calls_only_call.
Qed.

Lemma answer_from_documents_calls (env : Env) (req : RequestBody) (chat : ChatModel)
    (query reformulatedQuery : string) (docs : list Document) :
  calls_only (tail_call env req query reformulatedQuery docs)
    (answer_from_documents env req chat query reformulatedQuery docs).
Proof.
  unfold answer_from_documents.
  apply calls_only_bind.
  - destruct (rerank_configured env); [by apply calls_only_call | constructor].
  - intros rerankedDocuments. destruct (negb (truthy (stream req))); simpl.
    + constructor; [by eexists | intros response; constructor].
    + constructor; [exact I | intros _].
      constructor; [by eexists | intros response].
      constructor; [exact I | intros _].
      apply calls_only_bind; [| intros _; constructor].
      apply rag_stream_body_calls. intros ev. exact I.
Qed.

Section KnowledgeBaseRuns.

Variable env : Env.
Variable w : World.

Lemma run_yield_chunks (cs : list Chunk) (s : world_state w)
    (t : list Event) (o : Outcome unit) (s' : world_state w) :
  run w (yield_chunks cs) s = (t, o, s') ->
  Forall (fun ev => is_message ev = true) (emitted t)
  /\ (o = Returned () -> emitted t = yielded cs).
Proof.
  revert s t o s'. induction cs as [| chunk rest IH]; intros s t o s'; simpl.
  - intros [= <- <- <-]. split; [constructor | done].
  - unfold yielded. simpl. destruct (chunk_content chunk) as [c |]; simpl.
    + destruct (respond w unit (Enqueue (MessageEvent "assistant" (Some c))) s)
        as [[[] | e] s1].
      * destruct (run w (yield_chunks rest) s1) as [[t1 o1] s2] eqn:Hrest.
        intros [= <- <- <-]. destruct (IH _ _ _ _ Hrest) as [Hall Hret].
        unfold emitted in *. simpl. split; [by constructor |].
        intros Ho. f_equal. by apply Hret.
      * intros [= <- <- <-]. split; [constructor | discriminate].
    + apply IH.
Qed.

Lemma run_rag_stream_body (response : ChunkStream) (rerankedDocuments : list Document)
    (s : world_state w) (t : list Event) (o : Outcome unit) (s' : world_state w) :
  run w (rag_stream_body response rerankedDocuments) s = (t, o, s') ->
  (forall d, RelevantDocuments d ∈ emitted t -> d = rerankedDocuments)
  /\ (o = Returned () ->
        emitted t = yielded (chunks response) ++ [RelevantDocuments rerankedDocuments]).
Proof.
  unfold rag_stream_body. rewrite run_mbind.
  destruct (run w (yield_chunks (chunks response)) s) as [[t1 [[] | e]] s1] eqn:Hyield.
  - destruct (run_yield_chunks _ _ _ _ _ Hyield) as [Hall Hret].
    specialize (Hret eq_refl).
    assert (forall d, RelevantDocuments d ∉ emitted t1) as Hnone.
    { intros d Hin. rewrite Forall_forall in Hall. by apply Hall in Hin. }
    rewrite run_mbind. destruct (stream_failure response) as [msg |]; simpl.
    + intros [= <- <- <-]. rewrite app_nil_r. split; [| discriminate].
      intros d Hin. by apply Hnone in Hin.
    + destruct (respond w unit (Enqueue (RelevantDocuments rerankedDocuments)) s1)
        as [[[] | e] s2]; intros [= <- <- <-]; unfold emitted in *; rewrite omap_app; simpl.
      * split; [| by rewrite Hret].
        intros d [Hin | Hin]%elem_of_app; [by apply Hnone in Hin |].
        apply list_elem_of_singleton in Hin. by injection Hin.
      * split; [| discriminate].
        rewrite app_nil_r. intros d Hin. by apply Hnone in Hin.
  - destruct (run_yield_chunks _ _ _ _ _ Hyield) as [Hall _].
    intros [= <- <- <-]. split; [| discriminate].
    intros d Hin. rewrite Forall_forall in Hall. by apply Hall in Hin.
Qed.

End KnowledgeBaseRuns.

(** ** Reformulation, retrieval and the prompt *)

Lemma truthy_id_Some (o : option Z) :
  truthy_id o = true -> exists id, o = Some id /\ id <> 0.
Proof.
  destruct o as [id |]; simpl; [| discriminate].
  destruct (Z.eqb_spec id 0); [discriminate |]. by exists id.
Qed.

Lemma or_else_falsy (o : option string) (d : string) :
  truthy_str o = false -> or_else o d = d.
Proof. destruct o as [s |]; simpl; [| done]. by intros ->. Qed.

Section KnowledgeBaseHandler.

Variable concat : Chunk -> Chunk -> Chunk.
Variable anthropic : string.
Variable env : Env.
Variable w : World.

Lemma answer_from_documents_reads (req : RequestBody) (chat : ChatModel)
    (query reformulatedQuery : string) (docs : list Document) (s : world_state w)
    (t : list Event) (o : Outcome Response) (s' : world_state w) :
  run w (answer_from_documents env req chat query reformulatedQuery docs) s = (t, o, s') ->
  coref_calls t = [] /\ retrievals t = []
  /\ (forall input, input ∈ model_inputs t ->
        exists ctx,
          input = PromptInput (SYSTEM_TEMPLATE ctx (serializeMessages (messages req)) query))
  /\ (forall c, c ∈ rerank_calls t ->
        c.1.1.1 = rerank_options env /\ c.1.1.2 = docs /\ c.1.2 = reformulatedQuery).
Proof.
  intros Hrun.
  pose proof (run_calls_only _ w _ s
                (answer_from_documents_calls env req chat query reformulatedQuery docs)) as Hall.
  rewrite Hrun in Hall. unfold trace_of in Hall. simpl in Hall.
  split; [| split; [| split]].
  - apply (omap_none_on (tail_call env req query reformulatedQuery docs)); [| exact Hall].
    intros [X c r] Hc. destruct c; simpl in *; done.
  - apply (omap_none_on (tail_call env req query reformulatedQuery docs)); [| exact Hall].
    intros [X c r] Hc. destruct c; simpl in *; done.
  - intros input Hin. apply list_elem_of_omap in Hin as (ev & Hev & Hinput).
    rewrite Forall_forall in Hall. apply Hall in Hev.
    destruct ev as [X c r]. destruct c; simpl in *; try discriminate;
      injection Hinput as <-; exact Hev.
  - intros c Hin. apply list_elem_of_omap in Hin as (ev & Hev & Hc).
    rewrite Forall_forall in Hall. apply Hall in Hev.
    destruct ev as [X c0 r]. destruct c0; simpl in *; try discriminate.
    injection Hc as <-. simpl. tauto.
Qed.

Lemma run_knowledge_base_branch (req : RequestBody) (id : Z) (s : world_state w)
    (t : list Event) (o : Outcome Response) (s' : world_state w) :
  run w (knowledge_base_branch env req id) s = (t, o, s') -> KbRun env w req t o.
Proof.
  unfold knowledge_base_branch. simpl.
  run_call; [| intros [= <- <- <-]; by apply kb_stopped_early].
  destruct x as [knowledgebase |]; simpl.
  2: { run_call; intros [= <- <- <-]; apply kb_stopped_early; try done.
       by intros resp [= <-]. }
  do 3 (run_call; [| intros [= <- <- <-]; by apply kb_stopped_early]).
  destruct (last (messages req)) as [m |] eqn:Hlast; simpl.
  2: { intros [= <- <- <-]. by apply kb_stopped_early. }
  run_call; [| intros [= <- <- <-]; by eapply kb_coref_raised].
  run_call; [| intros [= <- <- <-]; by eapply kb_retrieval_raised].
  match goal with
  | |- context [run w (answer_from_documents env req ?chat ?q ?rq ?docs) ?s0] =>
      destruct (run w (answer_from_documents env req chat q rq docs) s0)
        as [[t' o'] s6] eqn:Htail
  end.
  intros [= <- <- <-].
  destruct (answer_from_documents_reads _ _ _ _ _ _ _ _ _ Htail) as (Hc & Hr & _).
  eapply kb_answered; [exact Hlast | exact Htail | ..];
    unfold coref_calls, retrievals in *; simpl;
    first [reflexivity | f_equal; first [exact Hc | exact Hr]].
Qed.

Lemma run_handler_knowledge_base (req : RequestBody) (s : world_state w) :
  truthy_id (knowledgebaseId req) = true ->
  KbRun env w req (trace_of (run w (handler concat anthropic env req) s))
            (outcome_of (run w (handler concat anthropic env req) s)).
Proof.
  intros (id & Hid & Hnz)%truthy_id_Some.
  rewrite (handler_truthy concat anthropic env req id Hid Hnz).
  destruct (run w (knowledge_base_branch env req id) s) as [[t o] s'] eqn:Hrun.
  exact (run_knowledge_base_branch _ _ _ _ _ _ Hrun).
Qed.

End KnowledgeBaseHandler.

Section KnowledgeBaseClaims.

Variable concat : Chunk -> Chunk -> Chunk.
Variable anthropic : string.
Variable env : Env.
Variable w : World.

(** C2, as the code has it: the reformulation is asked about the content
    of the last message.  When it returns, the retrieval query is its
    output, or the content of the last message verbatim when the output is
    empty or absent.  When it raises, nothing catches the error: the
    request ends with that error and no retrieval is made. *)
Theorem reformulation_fallback (req : RequestBody) (s : world_state w) :
  truthy_id (knowledgebaseId req) = true ->
  forall q r,
    (q, r) ∈ coref_calls (trace_of (run w (handler concat anthropic env req) s)) ->
    (exists m, last (messages req) = Some m /\ q = content m)
    /\ match r with
       | Returns res =>
           retrieval_queries (trace_of (run w (handler concat anthropic env req) s)) =
             [or_else (output res) q]
           /\ (truthy_str (output res) = false ->
               retrieval_queries (trace_of (run w (handler concat anthropic env req) s)) = [q])
       | Raises e =>
           outcome_of (run w (handler concat anthropic env req) s) = Thrown e
           /\ retrieval_queries (trace_of (run w (handler concat anthropic env req) s)) = []
       end.
Proof.
  intros Htruthy q r Hin.
  destruct (run_handler_knowledge_base concat anthropic env w req s Htruthy)
    as [Hc _ _ _ _ _
       | m e Hlast Hc Hr _ _ _ Ho
       | m res e Hlast Hc Hr _ _ _ Ho
       | m res docs chat s0 t' s' Hlast Htail Hc Hr _ _ _];
    rewrite Hc in Hin.
  - by apply elem_of_nil in Hin.
  - apply list_elem_of_singleton in Hin. injection Hin as -> ->.
    split; [by exists m |]. unfold retrieval_queries. by rewrite Hr.
  - apply list_elem_of_singleton in Hin. injection Hin as -> ->.
    split; [by exists m |]. unfold retrieval_queries. rewrite Hr. simpl.
    split; [reflexivity |]. intros Hempty. by rewrite or_else_falsy.
  - apply list_elem_of_singleton in Hin. injection Hin as -> ->.
    split; [by exists m |]. unfold retrieval_queries. rewrite Hr. simpl.
    split; [reflexivity |]. intros Hempty. by rewrite or_else_falsy.
Qed.


End KnowledgeBaseClaims.

(** ** The evidence documents of an answer *)

Section Evidence.

Variable concat : Chunk -> Chunk -> Chunk.
Variable anthropic : string.
Variable env : Env.
Variable w : World.

Lemma answer_from_documents_evidence (req : RequestBody) (chat : ChatModel)
    (query reformulatedQuery : string) (docs : list Document) (s : world_state w)
    (t : list Event) (o : Outcome Response) (s' : world_state w) :
  run w (answer_from_documents env req chat query reformulatedQuery docs) s = (t, o, s') ->
  (forall msg, o = Returned (RespJson msg) -> relevant_docs msg = Some docs)
  /\ (forall d, RelevantDocuments d ∈ emitted t ->
        if rerank_configured env
        then rerank_calls t = [(rerank_options env, docs, reformulatedQuery, Returns d)]
        else rerank_calls t = [] /\ d = docs).
Proof.
  unfold answer_from_documents.
  assert (forall rerankedDocuments s0 t0 o0 s0',
    run w (if negb (truthy (stream req))
           then response ← call (Invoke chat (PromptInput
                  (SYSTEM_TEMPLATE (formatDocumentsAsString rerankedDocuments)
                     (serializeMessages (messages req)) query)));
                Ret (RespJson (assistant_message (reply_content response) (Some docs)))
           else call SetEventStreamResponse;;
                response ← call (Stream chat (PromptInput
                  (SYSTEM_TEMPLATE (formatDocumentsAsString rerankedDocuments)
                     (serializeMessages (messages req)) query)));
                call SendStream;;
                rag_stream_body response rerankedDocuments;;
                Ret RespStream) s0 = (t0, o0, s0') ->
    rerank_calls t0 = []
    /\ (forall msg, o0 = Returned (RespJson msg) -> relevant_docs msg = Some docs)
    /\ (forall d, RelevantDocuments d ∈ emitted t0 -> d = rerankedDocuments)) as Hrest.
  { intros rerankedDocuments s0 t0 o0 s0'.
    destruct (negb (truthy (stream req))); simpl.
    - run_call; intros [= <- <- <-]; (split; [reflexivity |]); split;
        try (by intros d ?%elem_of_nil); try discriminate.
      by intros msg [= <-].
    - run_call.
      2: { intros [= <- <- <-]. split; [reflexivity |]. split; [discriminate |].
           by intros d ?%elem_of_nil. }
      run_call.
      2: { intros [= <- <- <-]. split; [reflexivity |]. split; [discriminate |].
           by intros d ?%elem_of_nil. }
      run_call.
      2: { intros [= <- <- <-]. split; [reflexivity |]. split; [discriminate |].
           by intros d ?%elem_of_nil. }
      rewrite run_mbind.
      match goal with
      | |- context [run w (rag_stream_body ?r ?d) ?s1] =>
          destruct (run w (rag_stream_body r d) s1) as [[tb ob] sb] eqn:Hbody;
          pose proof (run_calls_only enqueue_only w _ s1
                        (rag_stream_body_calls enqueue_only r d (fun _ => I))) as Hall
      end.
      destruct (run_rag_stream_body _ _ _ _ _ _ _ Hbody) as [Hdocs _].
      rewrite Hbody in Hall. unfold trace_of in Hall. simpl in Hall.
      assert (rerank_calls tb = []) as Hk.
      { apply (omap_none_on enqueue_only); [| exact Hall].
        intros [X c r] Hc. destruct c; simpl in *; done. }
      destruct ob as [[] | eb]; simpl; intros [= <- <- <-];
        unfold rerank_calls, emitted in *; simpl; rewrite ?app_nil_r.
      + split; [exact Hk |]. split; [discriminate | exact Hdocs].
      + split; [exact Hk |]. split; [discriminate | exact Hdocs]. }
  rewrite run_mbind. destruct (rerank_configured env); simpl.
  - run_call.
    + match goal with
      | |- context [run w ?p ?s1] =>
          destruct (run w p s1) as [[tb ob] sb] eqn:Hrun
      end.
      destruct (Hrest _ _ _ _ _ Hrun) as (Hk & Hsync & Hstream).
      intros [= <- <- <-]. split; [exact Hsync |].
      intros d Hd. unfold rerank_calls, emitted in *. simpl in *.
      apply Hstream in Hd as ->. f_equal. exact Hk.
    + intros [= <- <- <-]. split; [discriminate | by intros d ?%elem_of_nil].
  - match goal with
    | |- context [run w ?p ?s1] =>
        destruct (run w p s1) as [[tb ob] sb] eqn:Hrun
    end.
    destruct (Hrest _ _ _ _ _ Hrun) as (Hk & Hsync & Hstream).
    intros [= <- <- <-]. split; [exact Hsync |].
    intros d Hd. split; [exact Hk | by apply Hstream].
Qed.

(** X19: the body of a knowledge-base answer without streaming carries the
    documents as the retriever returned them, reranker or not. *)
Lemma sync_answer_has_retrieved_documents (req : RequestBody) (s : world_state w)
    (msg : ResponseMessage) :
  truthy_id (knowledgebaseId req) = true ->
  outcome_of (run w (handler concat anthropic env req) s) = Returned (RespJson msg) ->
  exists q docs,
    retrievals (trace_of (run w (handler concat anthropic env req) s)) = [(q, Returns docs)]
    /\ relevant_docs msg = Some docs.
Proof.
  intros Htruthy Ho.
  destruct (run_handler_knowledge_base concat anthropic env w req s Htruthy)
    as [_ _ _ _ _ Hundef
       | m e _ _ _ _ _ _ Hthrown
       | m res e _ _ _ _ _ _ Hthrown
       | m res docs chat s0 t' s' Hlast Htail Hc Hr _ _ _].
  - by specialize (Hundef _ Ho).
  - congruence.
  - congruence.
  - rewrite Ho in Htail.
    destruct (answer_from_documents_evidence _ _ _ _ _ _ _ _ _ Htail) as [Hsync _].
    exists (or_else (output res) (content m)), docs. split; [exact Hr | by apply Hsync].
Qed.

(** X20: the documents event of a knowledge-base stream carries what the
    reranker returned when it is configured, and the retrieved documents
    otherwise. *)
Lemma streamed_documents (req : RequestBody) (s : world_state w) (d : list Document) :
  truthy_id (knowledgebaseId req) = true ->
  RelevantDocuments d ∈ emitted (trace_of (run w (handler concat anthropic env req) s)) ->
  exists q docs,
    retrievals (trace_of (run w (handler concat anthropic env req) s)) = [(q, Returns docs)]
    /\ if rerank_configured env
       then rerank_calls (trace_of (run w (handler concat anthropic env req) s)) =
              [(rerank_options env, docs, q, Returns d)]
       else rerank_calls (trace_of (run w (handler concat anthropic env req) s)) = []
            /\ d = docs.
Proof.
  intros Htruthy Hd.
  destruct (run_handler_knowledge_base concat anthropic env w req s Htruthy)
    as [_ _ _ _ He _
       | m e _ _ _ _ _ He _
       | m res e _ _ _ _ _ He _
       | m res docs chat s0 t' s' Hlast Htail Hc Hr _ Hk He];
    rewrite He in Hd; try (by apply elem_of_nil in Hd).
  destruct (answer_from_documents_evidence _ _ _ _ _ _ _ _ _ Htail) as [_ Hstream].
  exists (or_else (output res) (content m)), docs. split; [exact Hr |].
  rewrite Hk. by apply Hstream.
Qed.

End Evidence.

(** ** The handler on the worked requests *)

Example warranty_prompt :
  model_inputs (trace_of (scripted_run library_script cohere_env (warranty_request (JsBool true)))) =
    [PromptInput (SYSTEM_TEMPLATE
       (formatDocumentsAsString [doc "d1"; doc "d2"; doc "d3"; doc "d4"])
       (serializeMessages (messages (warranty_request (JsBool true))))
       "What is its warranty?")]
  /\ retrieval_queries (trace_of (scripted_run library_script cohere_env
                                    (warranty_request (JsBool true)))) =
       ["What is the warranty of the X200 printer?"].
Proof. split; vm_compute; reflexivity. Qed.

Example agentic_stream_events :
  emitted (trace_of (scripted_run tools_script plain_env (agentic_request (JsBool true)))) =
    [MessageEvent "assistant" (Some (Text "Let me "));
     MessageEvent "assistant" (Some (Text "look."));
     MessageEvent "assistant" (Some (Text EmptyString));
     ToolResultEvent (Some "call_1") "result of search";
     ToolResultEvent (Some "call_4") "result of fetch"].
Proof. vm_compute. reflexivity. Qed.

(** C1 on the code: with a reranker configured that keeps four of the five
    retrieved documents, the streamed documents event carries the four,
    and the body of the answer without streaming carries all five, the
    list as the retriever returned it. *)
Theorem sync_answer_ignores_reranker :
  rerank_configured cohere_env = true
  /\ (rerank_calls (trace_of (scripted_run library_script cohere_env
                                (warranty_request (JsBool false))))).*2 =
       [Returns [doc "d1"; doc "d2"; doc "d3"; doc "d4"]]
  /\ outcome_of (scripted_run library_script cohere_env (warranty_request (JsBool false))) =
       Returned (RespJson (assistant_message (Some (Text "Two years."))
                   (Some [doc "d1"; doc "d2"; doc "d3"; doc "d4"; doc "d5"])))
  /\ emitted (trace_of (scripted_run library_script cohere_env (warranty_request (JsBool true)))) =
       [MessageEvent "assistant" (Some (Text "Two "));
        MessageEvent "assistant" (Some (Text "years."));
        RelevantDocuments [doc "d1"; doc "d2"; doc "d3"; doc "d4"]].
Proof. repeat split; vm_compute; reflexivity. Qed.

(** C2 fails on the code: when the reformulation raises, the request ends
    with that error, and neither the retriever nor the model is called. *)
Lemma coref_failure_aborts :
  outcome_of (scripted_run failing_coref_script plain_env (warranty_request (JsBool false))) =
    Thrown (JsError "reformulation service unavailable")
  /\ coref_calls (trace_of (scripted_run failing_coref_script plain_env
                              (warranty_request (JsBool false)))) =
       [("What is its warranty?", Raises (JsError "reformulation service unavailable"))]
  /\ retrieval_queries (trace_of (scripted_run failing_coref_script plain_env
                                    (warranty_request (JsBool false)))) = []
  /\ model_inputs (trace_of (scripted_run failing_coref_script plain_env
                               (warranty_request (JsBool false)))) = [].
Proof. repeat split; vm_compute; reflexivity. Qed.


(** C6 fails on the code: the reply of the model asks for the search tool,
    which the map holds, and the branch without streaming neither looks it
    up nor invokes it. *)
Lemma sync_reply_tools_not_invoked :
  (reply_tool_calls <$> model_replies (trace_of (scripted_run tools_script plain_env
                                            (agentic_request (JsBool false))))) =
    [[call_of "search" "call_1"]]
  /\ toolsMap [search_tool; fetch_tool] !! "search" = Some search_tool
  /\ tool_invocations (trace_of (scripted_run tools_script plain_env
                                   (agentic_request (JsBool false)))) = []
  /\ outcome_of (scripted_run tools_script plain_env (agentic_request (JsBool false))) =
       Returned (RespJson (assistant_message (Some (Text "Let me look that up.")) None)).
Proof. repeat split; vm_compute; reflexivity. Qed.

(** ** The theorems at work on the requests above *)


Lemma falsy_id_takes_agentic_branch_witness :
  truthy_id (knowledgebaseId (agentic_request (JsBool true))) = false
  /\ handler merge_chunks "Anthropic" plain_env (agentic_request (JsBool true)) =
       agentic_branch merge_chunks "Anthropic" (agentic_request (JsBool true))
  /\ forall s,
       lookups (trace_of (run (scripted tools_script)
                            (handler merge_chunks "Anthropic" plain_env
                               (agentic_request (JsBool true))) s)) = [].
Proof.
  split; [reflexivity |].
  apply (falsy_id_takes_agentic_branch merge_chunks "Anthropic" plain_env
           (scripted tools_script) (agentic_request (JsBool true))).
  reflexivity.
Defined.

Lemma agentic_sync_single_turn_witness :
  tool_invocations (trace_of (scripted_run tools_script plain_env
                                (agentic_request (JsBool false)))) = []
  /\ (length (model_inputs (trace_of (scripted_run tools_script plain_env
                                        (agentic_request (JsBool false))))) <= 1)%nat
  /\ (Forall (fun ev => event_returned ev = true)
         (trace_of (scripted_run tools_script plain_env (agentic_request (JsBool false)))) ->
       exists resp,
         outcome_of (scripted_run tools_script plain_env (agentic_request (JsBool false))) =
           Returned resp)
  /\ forall resp,
       outcome_of (scripted_run tools_script plain_env (agentic_request (JsBool false))) =
         Returned resp ->
       exists reply,
         model_replies (trace_of (scripted_run tools_script plain_env
                                    (agentic_request (JsBool false)))) = [reply]
         /\ resp = RespJson (assistant_message (reply_content reply) None).
Proof.
  apply (agentic_sync_single_turn merge_chunks "Anthropic" plain_env (scripted tools_script)
           (agentic_request (JsBool false)) ()).
  - reflexivity.
  - reflexivity.
Defined.


Lemma reformulation_fallback_witness :
  (exists m, last (messages (warranty_request (JsBool false))) = Some m
             /\ "What is its warranty?" = content m)
  /\ retrieval_queries (trace_of (run (scripted silent_coref_script)
        (handler merge_chunks "Anthropic" plain_env (warranty_request (JsBool false))) ())) =
       [or_else (output {| output := Some EmptyString |}) "What is its warranty?"]
     /\ (truthy_str (output {| output := Some EmptyString |}) = false ->
         retrieval_queries (trace_of (run (scripted silent_coref_script)
           (handler merge_chunks "Anthropic" plain_env (warranty_request (JsBool false))) ())) =
           ["What is its warranty?"]).
Proof.
  apply (reformulation_fallback merge_chunks "Anthropic" plain_env (scripted silent_coref_script)
           (warranty_request (JsBool false)) () eq_refl
           "What is its warranty?" (Returns {| output := Some EmptyString |})).
  vm_compute. constructor.
Defined.


(** ** More of the file: the helpers *)

Lemma push_message_length (acc : list BaseMessage) (m : Message) :
  length (push_message acc m) =
    (length acc + (if kept_by_normalizer m then 1 else 0))%nat.
Proof.
  unfold push_message, kept_by_normalizer.
  destruct (toolResult m), (String.eqb (role m) "user"), (String.eqb (role m) "assistant");
    simpl; rewrite ?length_app; simpl; lia.
Qed.

(** X1: a message that is no tool result and whose role is neither user
    nor assistant leaves no trace in the normalized messages: the result is
    that of the list without it. *)
Theorem normalizeMessages_drops_other_roles (before after : list Message) (m : Message) :
  toolResult m = false -> role m <> "user" -> role m <> "assistant" ->
  normalizeMessages (before ++ m :: after) = normalizeMessages (before ++ after).
Proof.
  intros Htool Huser Hassistant.
  rewrite !normalizeMessages_app, normalizeMessages_cons.
  unfold push_message. rewrite Htool.
  apply String.eqb_neq in Huser, Hassistant. rewrite Huser, Hassistant. reflexivity.
Qed.

(** X2: the normalizer yields one message for each message that is a tool
    result, a user turn or an assistant turn, and none for the others. *)
Theorem normalizeMessages_length (messages : list Message) :
  length (normalizeMessages messages) =
    length (filter (fun m => kept_by_normalizer m = true) messages).
Proof.
  induction messages as [| m ms IH]; [reflexivity |].
  rewrite normalizeMessages_cons, length_app, IH, filter_cons.
  pose proof (push_message_length [] m) as Hm. simpl in Hm. rewrite Hm.
  destruct (kept_by_normalizer m); simpl; reflexivity.
Qed.

Lemma append_assoc (a b c : string) : (a +:+ b) +:+ c = a +:+ (b +:+ c).
Proof.
  induction a as [| ch a IH]; [reflexivity |].
  change (String ch ((a +:+ b) +:+ c) = String ch (a +:+ (b +:+ c))). by rewrite IH.
Qed.

Lemma concat_cons_nonempty (sep x : string) (xs : list string) :
  xs <> [] -> String.concat sep (x :: xs) = x +:+ sep +:+ String.concat sep xs.
Proof. destruct xs; [done | reflexivity]. Qed.

Lemma concat_app_nonempty (sep : string) (l1 l2 : list string) :
  l1 <> [] -> l2 <> [] ->
  String.concat sep (l1 ++ l2) = String.concat sep l1 +:+ sep +:+ String.concat sep l2.
Proof.
  intros H1 H2. induction l1 as [| x xs IH]; [done |].
  destruct xs as [| y ys].
  - simpl. destruct l2; [done | reflexivity].
  - change ((x :: y :: ys) ++ l2) with (x :: ((y :: ys) ++ l2)).
    rewrite concat_cons_nonempty by done.
    rewrite IH by done.
    rewrite (concat_cons_nonempty sep x (y :: ys)) by done.
    by rewrite !append_assoc.
Qed.

(** X3: the serialized history of two non-empty lists of messages laid end
    to end is the two serialized histories joined by one newline. *)
Theorem serializeMessages_app (l1 l2 : list Message) :
  l1 <> [] -> l2 <> [] ->
  serializeMessages (l1 ++ l2) = serializeMessages l1 +:+ nl +:+ serializeMessages l2.
Proof.
  intros H1 H2. unfold serializeMessages. rewrite map_app.
  apply concat_app_nonempty; by destruct l1, l2.
Qed.

Lemma toolsMap_lookup_after (before after : list Tool) (tool : Tool) :
  Forall (fun t => tool_name_of t <> tool_name_of tool) after ->
  toolsMap (before ++ tool :: after) !! tool_name_of tool = Some tool.
Proof.
  intros Hafter. rewrite toolsMap_lookup_last, filter_app, filter_cons.
  rewrite decide_True by done.
  assert (filter (fun t => tool_name_of t = tool_name_of tool) after = []) as ->.
  { induction Hafter as [| t ts Ht _ IH]; [reflexivity |].
    rewrite filter_cons, decide_False by done. exact IH. }
  apply last_snoc.
Qed.

(** X4: among listed tools of one name the last one wins: a tool is what
    the map gives for its name when no tool listed after it has that name,
    whatever was listed before. *)
Theorem toolsMap_last_wins (before after : list Tool) (tool : Tool) :
  Forall (fun t => tool_name_of t <> tool_name_of tool) after ->
  toolsMap (before ++ tool :: after) !! tool_name_of tool = Some tool
  /\ forall earlier,
       earlier ∈ before -> tool_name_of earlier = tool_name_of tool -> earlier <> tool ->
       toolsMap (before ++ tool :: after) !! tool_name_of earlier <> Some earlier.
Proof.
  intros Hafter. split; [by apply toolsMap_lookup_after |].
  intros earlier _ Hname Hne. rewrite Hname, toolsMap_lookup_after by done.
  by intros [= ->].
Qed.

(** X5: when the listed tools have pairwise different names, looking up
    the name of a listed tool gives that very tool. *)
Theorem toolsMap_unique_names (normalizedTools : list Tool) (tool : Tool) :
  NoDup (tool_name_of <$> normalizedTools) ->
  tool ∈ normalizedTools ->
  toolsMap normalizedTools !! tool_name_of tool = Some tool.
Proof.
  intros Hnodup Hin.
  apply list_elem_of_split in Hin as (before & after & ->).
  apply toolsMap_lookup_after.
  rewrite fmap_app, fmap_cons in Hnodup.
  apply NoDup_app in Hnodup as (_ & _ & Hnodup).
  apply NoDup_cons in Hnodup as [Hnotin _].
  apply Forall_forall. intros t Ht Heq. apply Hnotin.
  rewrite <- Heq. by apply list_elem_of_fmap_2.
Qed.



Lemma raise_ends_run (w : World) {A : Type} (p : Prog A) (s : world_state w)
    (pre post : list Event) (ev : Event) (e : Error) :
  trace_of (run w p s) = pre ++ ev :: post ->
  raised_error ev = Some e ->
  post = [] /\ outcome_of (run w p s) = Thrown e.
Proof.
  revert s pre. induction p as [a | e0 | X c k IH]; intros s pre; simpl.
  - unfold trace_of. simpl. intros Ht. by destruct pre.
  - unfold trace_of. simpl. intros Ht. by destruct pre.
  - destruct (respond w X c s) as [[x | e0] s1].
    + specialize (IH x s1). destruct (run w (k x) s1) as [[t o] s2].
      unfold trace_of, outcome_of in *. simpl in *.
      intros Ht Hev. destruct pre as [| ev0 pre]; simpl in Ht.
      * injection Ht as <- _. discriminate.
      * injection Ht as _ Ht. exact (IH pre Ht Hev).
    + unfold trace_of, outcome_of. simpl. intros Ht Hev.
      destruct pre as [| ev0 pre]; simpl in Ht.
      * injection Ht as <- <-. simpl in Hev. injection Hev as ->. done.
      * injection Ht as _ Ht. by destruct pre.
Qed.

Section MoreCalls.

Variable concat : Chunk -> Chunk -> Chunk.
Variable anthropic : string.
Variable env : Env.
Variable w : World.


Lemma agentic_branch_calls (req : RequestBody) :
  calls_only (agentic_call req) (agentic_branch concat anthropic req).
Proof.
  unfold agentic_branch. simpl.
  constructor; [exact I | intros _].
  constructor; [exact I | intros toolsResponse].
  constructor; [exact I | intros llm].
  constructor; [exact I | intros listed].
  destruct (negb (truthy (stream req))); simpl.
  - constructor; [reflexivity | intros response]. constructor.
  - constructor; [reflexivity | intros response].
    constructor; [exact I | intros _].
    apply calls_only_bind; [| intros _; constructor].
    apply agentic_stream_body_calls; intros; exact I.
Qed.

(** X9: on the agentic branch the model gets the messages of the request
    as pairs of role and content, in order, so that no toolResult flag and
    no toolCallId reaches it; and no call of the knowledge-base branch
    (lookup, status, embeddings, retriever, reformulation, retrieval,
    reranking) is made. *)
Theorem agentic_model_input (req : RequestBody) (s : world_state w) :
  truthy_id (knowledgebaseId req) = false ->
  (forall input,
      input ∈ model_inputs (trace_of (run w (handler concat anthropic env req) s)) ->
      input = MessagesInput (transformMessages (messages req)))
  /\ Forall (fun ev => is_knowledge_base_call ev = false)
       (trace_of (run w (handler concat anthropic env req) s)).
Proof.
  intros Hfalsy. rewrite (handler_falsy concat anthropic env req Hfalsy).
  pose proof (run_calls_only _ w _ s (agentic_branch_calls req)) as Hall.
  split.
  - intros input Hin. apply list_elem_of_omap in Hin as (ev & Hev & Hinput).
    rewrite Forall_forall in Hall. apply Hall in Hev.
    destruct ev as [X c r]. destruct c; simpl in *; try discriminate;
      injection Hinput as <-; exact Hev.
  - eapply Forall_impl; [exact Hall |].
    intros [X c r] Hc. destruct c; simpl in *; done.
Qed.

Lemma calls_only_weaken (P Q : forall X : Type, Call X -> Prop) {A : Type} (p : Prog A) :
  (forall X (c : Call X), P X c -> Q X c) -> calls_only P p -> calls_only Q p.
Proof.
  intros HPQ Hp. induction Hp as [a | e | X c k Hc Hk IH]; constructor; auto.
Qed.

Lemma knowledge_base_branch_calls (req : RequestBody) (id : Z) :
  calls_only kb_call (knowledge_base_branch env req id).
Proof.
  unfold knowledge_base_branch. simpl.
  constructor; [exact I | intros [knowledgebase |]]; simpl.
  - constructor; [exact I | intros embeddings].
    constructor; [exact I | intros retriever].
    constructor; [exact I | intros chat].
    destruct (last (messages req)) as [m |]; simpl; [| constructor].
    constructor; [exact I | intros reformulatedResult].
    constructor; [exact I | intros docs].
    eapply calls_only_weaken; [| apply answer_from_documents_calls].
    intros X c. destruct c; simpl; done.
  - constructor; [exact I | intros _]. constructor.
Qed.

(** X10: a request on the knowledge-base branch never connects the MCP
    client, never lists tools and never invokes one. *)
Theorem knowledge_base_branch_never_uses_mcp (req : RequestBody) (s : world_state w) :
  truthy_id (knowledgebaseId req) = true ->
  Forall (fun ev => is_mcp_call ev = false)
    (trace_of (run w (handler concat anthropic env req) s)).
Proof.
  intros (id & Hid & Hnz)%truthy_id_Some.
  rewrite (handler_truthy concat anthropic env req id Hid Hnz).
  eapply Forall_impl; [apply run_calls_only, knowledge_base_branch_calls |].
  intros [X c r] Hc. destruct c; simpl in *; done.
Qed.

(** X11: a knowledge-base request with no message makes no reformulation,
    retrieval or model call and returns no answer: when the knowledge base
    is found and the embeddings, the retriever and the model are created,
    reading the content of the last message throws a TypeError. *)
Theorem empty_messages_knowledge_base (req : RequestBody) (s : world_state w) :
  truthy_id (knowledgebaseId req) = true ->
  messages req = [] ->
  coref_calls (trace_of (run w (handler concat anthropic env req) s)) = []
  /\ retrievals (trace_of (run w (handler concat anthropic env req) s)) = []
  /\ model_inputs (trace_of (run w (handler concat anthropic env req) s)) = []
  /\ (forall resp,
        outcome_of (run w (handler concat anthropic env req) s) = Returned resp ->
        resp = RespUndefined)
  /\ (Forall (fun ev => event_returned ev = true)
         (trace_of (run w (handler concat anthropic env req) s)) ->
       status_calls (trace_of (run w (handler concat anthropic env req) s)) = [] ->
       outcome_of (run w (handler concat anthropic env req) s) =
         Thrown (TypeError "Cannot read properties of undefined (reading 'content')")).
Proof.
  intros Htruthy Hempty.
  split; [| split; [| split; [| split]]].
  1-4: destruct (run_handler_knowledge_base concat anthropic env w req s Htruthy)
      as [Hc Hr Hm _ _ Hundef
         | m e Hlast _ _ _ _ _ _
         | m res e Hlast _ _ _ _ _ _
         | m res docs chat s0 t' s' Hlast _ _ _ _ _ _];
      try (rewrite Hempty in Hlast; discriminate); assumption.
  destruct (truthy_id_Some _ Htruthy) as (id & Hid & Hnz).
  rewrite (handler_truthy concat anthropic env req id Hid Hnz).
  unfold knowledge_base_branch. rewrite Hempty. simpl. unfold trace_of, outcome_of.
  run_call.
  2: { intros Hall. apply Forall_cons in Hall as [? _]. discriminate. }
  destruct x as [knowledgebase |]; simpl.
  2: { run_call; intros _ Hstatus; discriminate. }
  do 3 (run_call;
        [| intros Hall; repeat (apply Forall_cons in Hall as [? Hall]); discriminate]).
  reflexivity.
Qed.

End MoreCalls.

Lemma answer_from_documents_rerank_then_answer (env : Env) (req : RequestBody)
    (chat : ChatModel) (query reformulatedQuery : string) (docs : list Document) :
  answer_from_documents env req chat query reformulatedQuery docs =
    (if rerank_configured env
     then call (CompressDocuments (rerank_options env) docs reformulatedQuery)
     else Ret docs) ≫= answer_with req chat query docs.
Proof. reflexivity. Qed.

Section KnowledgeBaseTail.
Variable env : Env.
Variable w : World.

Lemma rag_stream_body_reads (response : ChunkStream) (rd : list Document)
    (s : world_state w) (t : list Event) (o : Outcome unit) (s' : world_state w) :
  run w (rag_stream_body response rd) s = (t, o, s') ->
  model_inputs t = [] /\ rerank_calls t = [] /\ stream_replies t = [].
Proof.
  intros Hrun.
  pose proof (run_calls_only enqueue_only w _ s
                (rag_stream_body_calls enqueue_only response rd (fun _ => I))) as Hall.
  rewrite Hrun in Hall. unfold trace_of in Hall. simpl in Hall.
  repeat split; apply (omap_none_on enqueue_only); try exact Hall;
    intros [X c r] Hc; destruct c; simpl in *; done.
Qed.

Lemma rag_stream_body_documents_last (response : ChunkStream) (rd : list Document)
    (s : world_state w) (t : list Event) (o : Outcome unit) (s' : world_state w)
    (d : list Document) :
  run w (rag_stream_body response rd) s = (t, o, s') ->
  RelevantDocuments d ∈ emitted t -> o = Returned ().
Proof.
  unfold rag_stream_body. rewrite run_mbind.
  destruct (run w (yield_chunks (chunks response)) s) as [[t1 [[] | e]] s1] eqn:Hyield;
    destruct (run_yield_chunks _ _ _ _ _ _ Hyield) as [Hall _];
    assert (RelevantDocuments d ∉ emitted t1) as Hnone
      by (intros Hin; rewrite Forall_forall in Hall; by apply Hall in Hin).
  - rewrite run_mbind. destruct (stream_failure response) as [msg |]; simpl.
    + intros [= <- <- <-]. by rewrite app_nil_r.
    + destruct (respond w unit (Enqueue (RelevantDocuments rd)) s1)
        as [[[] | e] s2]; intros [= <- <- <-]; [done |].
      unfold emitted in *. rewrite omap_app. simpl. by rewrite app_nil_r.
  - by intros [= <- <- <-].
Qed.

Lemma run_answer_with (req : RequestBody) (chat : ChatModel) (query : string)
    (docs rd : list Document) (s : world_state w)
    (t : list Event) (o : Outcome Response) (s' : world_state w) :
  run w (answer_with req chat query docs rd) s = (t, o, s') ->
  rerank_calls t = []
  /\ (length (model_inputs t) <= 1)%nat
  /\ (o = Returned RespStream ->
        exists response,
          stream_replies t = [response]
          /\ emitted t = yielded (chunks response) ++ [RelevantDocuments rd])
  /\ (forall d, RelevantDocuments d ∈ emitted t -> o = Returned RespStream).
Proof.
  unfold answer_with. destruct (negb (truthy (stream req))); simpl.
  - run_call; intros [= <- <- <-]; (split; [reflexivity |]); (split; [simpl; lia |]);
      (split; [discriminate |]); by intros d ?%elem_of_nil.
  - do 3 (run_call;
          [| intros [= <- <- <-]; (split; [reflexivity |]); (split; [simpl; lia |]);
             (split; [discriminate |]); by intros d ?%elem_of_nil]).
    rewrite run_mbind.
    match goal with
    | |- context [run w (rag_stream_body ?r ?d) ?s1] =>
        destruct (run w (rag_stream_body r d) s1) as [[tb ob] sb] eqn:Hbody
    end.
    destruct (rag_stream_body_reads _ _ _ _ _ _ Hbody) as (Hm & Hk & Hs).
    destruct (run_rag_stream_body _ _ _ _ _ _ _ Hbody) as [_ Hdone].
    pose proof (fun d => rag_stream_body_documents_last _ _ _ _ _ _ d Hbody) as Hlast.
    destruct ob as [[] | eb]; simpl; intros [= <- <- <-];
      unfold rerank_calls, model_inputs, stream_replies, emitted; simpl;
      rewrite ?app_nil_r.
    + split; [exact Hk |].
      split; [apply le_n_S, Nat.eq_le_incl; exact (f_equal length Hm) |].
      split; [| done]. intros _. eexists. split; [f_equal; exact Hs |]. by apply Hdone.
    + split; [exact Hk |].
      split; [apply le_n_S, Nat.eq_le_incl; exact (f_equal length Hm) |].
      split; [discriminate |]. intros d Hd. by specialize (Hlast d Hd).
Qed.

Lemma run_answer_from_documents (req : RequestBody) (chat : ChatModel)
    (query reformulatedQuery : string) (docs : list Document) (s : world_state w)
    (t : list Event) (o : Outcome Response) (s' : world_state w) :
  run w (answer_from_documents env req chat query reformulatedQuery docs) s = (t, o, s') ->
  (length (model_inputs t) <= 1)%nat
  /\ (rerank_configured env = false -> rerank_calls t = [])
  /\ (forall c e, c ∈ rerank_calls t -> c.2 = Raises e ->
        o = Thrown e /\ model_inputs t = [] /\ emitted t = [])
  /\ (o = Returned RespStream ->
        exists response d,
          stream_replies t = [response]
          /\ emitted t = yielded (chunks response) ++ [RelevantDocuments d])
  /\ (forall d, RelevantDocuments d ∈ emitted t -> o = Returned RespStream).
Proof.
  rewrite answer_from_documents_rerank_then_answer, run_mbind.
  destruct (rerank_configured env); simpl.
  - run_call.
    + match goal with
      | |- context [run w (answer_with ?a ?b ?c ?d ?e) ?s1] =>
          destruct (run w (answer_with a b c d e) s1) as [[ta oa] sa] eqn:Hrun
      end.
      destruct (run_answer_with _ _ _ _ _ _ _ _ _ Hrun) as (Hk & Hm & Hstream & Hdocs).
      intros [= <- <- <-].
      split; [exact Hm |]. split; [discriminate |]. split.
      { intros c e Hc Hraise. unfold rerank_calls in Hc. simpl in Hc.
        apply elem_of_cons in Hc as [-> | Hc]; [discriminate |].
        change (c ∈ rerank_calls ta) in Hc. rewrite Hk in Hc. by apply elem_of_nil in Hc. }
      split; [| exact Hdocs].
      intros Ho. destruct (Hstream Ho) as (response & Hs & He). by exists response, x.
    + intros [= <- <- <-]. split; [simpl; lia |]. split; [discriminate |]. split.
      { intros c e' Hc. apply list_elem_of_singleton in Hc as ->. simpl.
        by intros [= <-]. }
      split; [discriminate | by intros d ?%elem_of_nil].
  - match goal with
    | |- context [run w (answer_with ?a ?b ?c ?d ?e) ?s1] =>
        destruct (run w (answer_with a b c d e) s1) as [[ta oa] sa] eqn:Hrun
    end.
    destruct (run_answer_with _ _ _ _ _ _ _ _ _ Hrun) as (Hk & Hm & Hstream & Hdocs).
    intros [= <- <- <-]. split; [exact Hm |]. split; [done |]. split.
    { intros c e Hc. rewrite Hk in Hc. by apply elem_of_nil in Hc. }
    split; [| exact Hdocs].
    intros Ho. destruct (Hstream Ho) as (response & Hs & He). by exists response, docs.
Qed.

(** A run of the knowledge-base branch either stops among its first calls,
    or is those calls followed by a run of [answer_from_documents]. *)
Lemma run_knowledge_base_prefix (req : RequestBody) (id : Z) (s : world_state w)
    (t : list Event) (o : Outcome Response) (s' : world_state w) :
  run w (knowledge_base_branch env req id) s = (t, o, s') ->
  (Forall (event_call kb_prefix_call) t
   /\ forall resp, o = Returned resp -> resp = RespUndefined)
  \/ exists pre chat query reformulatedQuery docs s0 t',
       t = pre ++ t'
       /\ Forall (event_call kb_prefix_call) pre
       /\ retrievals pre = [(reformulatedQuery, Returns docs)]
       /\ run w (answer_from_documents env req chat query reformulatedQuery docs) s0 =
            (t', o, s').
Proof.
  unfold knowledge_base_branch. simpl.
  run_call; [| intros [= <- <- <-]; left; split; [repeat constructor | discriminate]].
  destruct x as [knowledgebase |]; simpl.
  2: { run_call; intros [= <- <- <-]; left; (split; [repeat constructor |]);
         [by intros resp [= <-] | discriminate]. }
  do 3 (run_call;
        [| intros [= <- <- <-]; left; split; [repeat constructor | discriminate]]).
  destruct (last (messages req)) as [m |] eqn:Hlast; simpl.
  2: { intros [= <- <- <-]. left. split; [repeat constructor | discriminate]. }
  do 2 (run_call;
        [| intros [= <- <- <-]; left; split; [repeat constructor | discriminate]]).
  match goal with
  | |- context [run w (answer_from_documents env req ?chat ?q ?rq ?docs) ?s0] =>
      destruct (run w (answer_from_documents env req chat q rq docs) s0)
        as [[t' o'] s6] eqn:Htail;
      intros [= <- <- <-]; right;
      exists [Called (FindUnique id) (Returns (Some knowledgebase));
              Called (CreateEmbeddings (kb_embedding knowledgebase)) (Returns x);
              Called (CreateRetriever x ("collection_" +:+ pretty (kb_id knowledgebase)))
                     (Returns x0);
              Called (CreateChatModel (model req) (family req)) (Returns chat);
              Called (ResolveCoreference q (normalizeMessages (messages req))
                        (OPENAI_API_KEY env)) (Returns x2);
              Called (GetRelevantDocuments x0 rq) (Returns docs)],
             chat, q, rq, docs, s0, t'
  end.
  split; [reflexivity |]. split; [repeat constructor |]. split; [reflexivity | exact Htail].
Qed.

Lemma kb_prefix_reads (pre : list Event) :
  Forall (event_call kb_prefix_call) pre ->
  model_inputs pre = [] /\ rerank_calls pre = [] /\ stream_replies pre = []
  /\ emitted pre = [].
Proof.
  intros Hall. repeat split; apply (omap_none_on kb_prefix_call); try exact Hall;
    intros [X c r] Hc; destruct c; simpl in *; done.
Qed.

End KnowledgeBaseTail.

Section MoreRuns.
Variable concat : Chunk -> Chunk -> Chunk.
Variable anthropic : string.
Variable env : Env.
Variable w : World.

Lemma run_handler_prefix (req : RequestBody) (s : world_state w) :
  truthy_id (knowledgebaseId req) = true ->
  (Forall (event_call kb_prefix_call) (trace_of (run w (handler concat anthropic env req) s))
   /\ forall resp,
        outcome_of (run w (handler concat anthropic env req) s) = Returned resp ->
        resp = RespUndefined)
  \/ exists pre chat query reformulatedQuery docs s0 t' s',
       trace_of (run w (handler concat anthropic env req) s) = pre ++ t'
       /\ Forall (event_call kb_prefix_call) pre
       /\ retrievals pre = [(reformulatedQuery, Returns docs)]
       /\ run w (answer_from_documents env req chat query reformulatedQuery docs) s0 =
            (t', outcome_of (run w (handler concat anthropic env req) s), s').
Proof.
  intros (id & Hid & Hnz)%truthy_id_Some.
  rewrite (handler_truthy concat anthropic env req id Hid Hnz).
  destruct (run w (knowledge_base_branch env req id) s) as [[t o] s'] eqn:Hrun.
  destruct (run_knowledge_base_prefix env w _ _ _ _ _ _ Hrun)
    as [Hstop | (pre & chat & q & rq & docs & s0 & t' & Ht & Hpre & Hr & Htail)].
  - by left.
  - right. by exists pre, chat, q, rq, docs, s0, t', s'.
Qed.

(** X12: when the reranker is not configured (no Cohere model, or neither
    an API key nor a base URL, an empty value counting as none), no request
    calls it. *)
Theorem reranker_off (req : RequestBody) (s : world_state w) :
  rerank_configured env = false ->
  rerank_calls (trace_of (run w (handler concat anthropic env req) s)) = [].
Proof.
  intros Hoff. destruct (truthy_id (knowledgebaseId req)) eqn:Hid.
  - destruct (run_handler_prefix req s Hid)
      as [[Hstop _] | (pre & chat & q & rq & docs & s0 & t' & s' & Ht & Hpre & Hr & Htail)].
    + by destruct (kb_prefix_reads _ Hstop) as (_ & Hk & _).
    + rewrite Ht. unfold rerank_calls. rewrite omap_app.
      destruct (kb_prefix_reads _ Hpre) as (_ & Hk & _).
      destruct (run_answer_from_documents env w _ _ _ _ _ _ _ _ _ Htail) as (_ & Hk' & _).
      unfold rerank_calls in *. by rewrite Hk, Hk'.
  - rewrite (handler_falsy concat anthropic env req Hid).
    apply (omap_none_on (agentic_call req)).
    + intros [X c r] Hc. destruct c; simpl in *; done.
    + apply run_calls_only, agentic_branch_calls.
Qed.

(** X13: whenever the reranker is called, it is called with the options
    of the environment and topN 4, on the documents that the retriever
    returned and with the query that the retriever was given. *)
Theorem reranker_input (req : RequestBody) (s : world_state w)
    (c : RerankOptions * list Document * string * Reply (list Document)) :
  truthy_id (knowledgebaseId req) = true ->
  c ∈ rerank_calls (trace_of (run w (handler concat anthropic env req) s)) ->
  c.1.1.1 = rerank_options env
  /\ topN c.1.1.1 = 4%nat
  /\ retrievals (trace_of (run w (handler concat anthropic env req) s)) =
       [(c.1.2, Returns c.1.1.2)].
Proof.
  intros Hid Hc.
  destruct (run_handler_prefix req s Hid)
    as [[Hstop _] | (pre & chat & q & rq & docs & s0 & t' & s' & Ht & Hpre & Hr & Htail)].
  - destruct (kb_prefix_reads _ Hstop) as (_ & Hk & _). rewrite Hk in Hc.
    by apply elem_of_nil in Hc.
  - rewrite Ht in Hc |- *. unfold rerank_calls in Hc. rewrite omap_app in Hc.
    destruct (kb_prefix_reads _ Hpre) as (_ & Hk & _). unfold rerank_calls in Hk.
    rewrite Hk in Hc. rewrite app_nil_l in Hc.
    destruct (answer_from_documents_reads env w _ _ _ _ _ _ _ _ _ Htail)
      as (_ & Hr' & _ & Hin).
    destruct (Hin c Hc) as (Ho & Hd & Hq).
    unfold retrievals in *. rewrite omap_app, Hr, Hr', Ho, Hd, Hq. done.
Qed.

(** X14: when the reranker raises, the request ends with that error: the
    model is not called and nothing is written to the stream. *)
Theorem reranker_failure_aborts (req : RequestBody) (s : world_state w)
    (c : RerankOptions * list Document * string * Reply (list Document)) (e : Error) :
  truthy_id (knowledgebaseId req) = true ->
  c ∈ rerank_calls (trace_of (run w (handler concat anthropic env req) s)) ->
  c.2 = Raises e ->
  outcome_of (run w (handler concat anthropic env req) s) = Thrown e
  /\ model_inputs (trace_of (run w (handler concat anthropic env req) s)) = []
  /\ emitted (trace_of (run w (handler concat anthropic env req) s)) = [].
Proof.
  intros Hid Hc Hraise.
  destruct (run_handler_prefix req s Hid)
    as [[Hstop _] | (pre & chat & q & rq & docs & s0 & t' & s' & Ht & Hpre & Hr & Htail)].
  - destruct (kb_prefix_reads _ Hstop) as (_ & Hk & _). rewrite Hk in Hc.
    by apply elem_of_nil in Hc.
  - rewrite Ht in Hc |- *. unfold rerank_calls in Hc. rewrite omap_app in Hc.
    destruct (kb_prefix_reads _ Hpre) as (Hm & Hk & _ & He).
    unfold rerank_calls in Hk. rewrite Hk in Hc. rewrite app_nil_l in Hc.
    destruct (run_answer_from_documents env w _ _ _ _ _ _ _ _ _ Htail)
      as (_ & _ & Hfail & _).
    destruct (Hfail c e Hc Hraise) as (Ho & Hm' & He').
    unfold model_inputs, emitted in *. by rewrite !omap_app, Hm, He, Hm', He'.
Qed.

(** X15: a knowledge-base stream that runs to its end is one message for
    each chunk whose content is defined, in the order of the chunks, and
    then one documents event, the last object of the stream. *)
Theorem knowledge_base_stream_events (req : RequestBody) (s : world_state w) :
  truthy_id (knowledgebaseId req) = true ->
  outcome_of (run w (handler concat anthropic env req) s) = Returned RespStream ->
  exists response d,
    stream_replies (trace_of (run w (handler concat anthropic env req) s)) = [response]
    /\ emitted (trace_of (run w (handler concat anthropic env req) s)) =
         yielded (chunks response) ++ [RelevantDocuments d].
Proof.
  intros Hid Ho.
  destruct (run_handler_prefix req s Hid)
    as [[_ Hundef] | (pre & chat & q & rq & docs & s0 & t' & s' & Ht & Hpre & Hr & Htail)].
  - by specialize (Hundef _ Ho).
  - rewrite Ht. unfold stream_replies, emitted. rewrite !omap_app.
    destruct (kb_prefix_reads _ Hpre) as (_ & _ & Hs & He).
    destruct (run_answer_from_documents env w _ _ _ _ _ _ _ _ _ Htail)
      as (_ & _ & _ & Hstream & _).
    destruct (Hstream Ho) as (response & d & Hs' & He').
    exists response, d. unfold stream_replies, emitted in *. by rewrite Hs, He, Hs', He'.
Qed.

(** X16: the documents event is written only at the end of a stream that
    did not break off: if it was written, the request returned its
    stream. *)
Theorem documents_event_means_completion (req : RequestBody) (s : world_state w)
    (d : list Document) :
  truthy_id (knowledgebaseId req) = true ->
  RelevantDocuments d ∈ emitted (trace_of (run w (handler concat anthropic env req) s)) ->
  outcome_of (run w (handler concat anthropic env req) s) = Returned RespStream.
Proof.
  intros Hid Hd.
  destruct (run_handler_prefix req s Hid)
    as [[Hstop _] | (pre & chat & q & rq & docs & s0 & t' & s' & Ht & Hpre & Hr & Htail)].
  - destruct (kb_prefix_reads _ Hstop) as (_ & _ & _ & He). rewrite He in Hd.
    by apply elem_of_nil in Hd.
  - rewrite Ht in Hd. unfold emitted in Hd. rewrite omap_app in Hd.
    destruct (kb_prefix_reads _ Hpre) as (_ & _ & _ & He). unfold emitted in He.
    rewrite He in Hd. rewrite app_nil_l in Hd.
    destruct (run_answer_from_documents env w _ _ _ _ _ _ _ _ _ Htail)
      as (_ & _ & _ & _ & Hdocs).
    exact (Hdocs d Hd).
Qed.

Lemma agentic_stream_body_reads (tm : gmap string Tool) (response : ChunkStream)
    (s : world_state w) :
  model_inputs (trace_of (run w (agentic_stream_body concat tm response) s)) = [].
Proof.
  apply (omap_none_on tool_phase_only).
  - intros [X c r] Hc. destruct c; simpl in *; done.
  - apply run_calls_only, agentic_stream_body_calls; intros; exact I.
Qed.

(** X17: no request calls the model more than once, on either branch and
    whether it streams or not. *)
Theorem single_model_call (req : RequestBody) (s : world_state w) :
  (length (model_inputs (trace_of (run w (handler concat anthropic env req) s))) <= 1)%nat.
Proof.
  destruct (truthy_id (knowledgebaseId req)) eqn:Hid.
  - destruct (run_handler_prefix req s Hid)
      as [[Hstop _] | (pre & chat & q & rq & docs & s0 & t' & s' & Ht & Hpre & Hr & Htail)].
    + destruct (kb_prefix_reads _ Hstop) as (Hm & _). rewrite Hm. simpl. lia.
    + rewrite Ht. unfold model_inputs. rewrite omap_app.
      destruct (kb_prefix_reads _ Hpre) as (Hm & _). unfold model_inputs in Hm. rewrite Hm.
      by destruct (run_answer_from_documents env w _ _ _ _ _ _ _ _ _ Htail) as (Hone & _).
  - rewrite (handler_falsy concat anthropic env req Hid).
    unfold agentic_branch. simpl. unfold trace_of.
    do 4 (run_call; [| unfold model_inputs; simpl; lia]).
    destruct (truthy (stream req)); simpl.
    2: { run_call; unfold model_inputs; simpl; lia. }
    do 2 (run_call; [| unfold model_inputs; simpl; lia]).
    rewrite run_mbind.
    match goal with
    | |- context [run w (agentic_stream_body concat ?tm ?response) ?s0] =>
        pose proof (agentic_stream_body_reads tm response s0) as Hbody;
        destruct (run w (agentic_stream_body concat tm response) s0) as [[t [[] | e]] s6]
    end; unfold trace_of, model_inputs in *; simpl in *; rewrite ?app_nil_r;
      apply le_n_S, Nat.eq_le_incl; exact (f_equal length Hbody).
Qed.

Lemma dispatch_invocations (tm : gmap string Tool) (calls : list ToolCall)
    (s : world_state w) (tc : Tool * ToolCall) :
  tc ∈ tool_invocations (trace_of (run w (dispatch tm calls) s)) ->
  tm !! name tc.2 = Some tc.1 /\ tc.2 ∈ calls.
Proof.
  revert s. induction calls as [| toolCall rest IH]; intros s; simpl.
  - by intros ?%elem_of_nil.
  - destruct (tm !! name toolCall) as [tool |] eqn:Htool; simpl.
    2: { intros Hin. destruct (IH s Hin) as [Hl Hr]. split; [exact Hl | by right]. }
    destruct (respond w ToolResult (ToolInvoke tool toolCall) s) as [[result | e] s1].
    2: { unfold trace_of, tool_invocations. simpl.
         intros ->%list_elem_of_singleton. simpl. split; [exact Htool | by left]. }
    destruct (respond w unit
                (Enqueue (ToolResultEvent (tool_call_id result) (result_content result))) s1)
      as [[[] | e] s2].
    2: { unfold trace_of, tool_invocations. simpl.
         intros ->%list_elem_of_singleton. simpl. split; [exact Htool | by left]. }
    specialize (IH s2). destruct (run w (dispatch tm rest) s2) as [[t1 o1] s3].
    unfold trace_of, tool_invocations in *. simpl in *.
    intros [-> | Hin]%elem_of_cons; simpl.
    + split; [exact Htool | by left].
    + destruct (IH Hin) as [Hl Hr]. split; [exact Hl | by right].
Qed.

Lemma agentic_stream_body_invocations (tm : gmap string Tool) (response : ChunkStream)
    (s : world_state w) (tc : Tool * ToolCall) :
  tc ∈ tool_invocations (trace_of (run w (agentic_stream_body concat tm response) s)) ->
  tm !! name tc.2 = Some tc.1
  /\ tc.2 ∈ completed_calls (gather concat None (chunks response)).
Proof.
  unfold agentic_stream_body. rewrite run_mbind.
  destruct (run w (forward_chunks concat (chunks response) None) s)
    as [[t1 [g | e]] s1] eqn:Hfwd;
    destruct (run_forward_chunks concat w _ _ _ _ _ _ Hfwd) as [Hcalls Hret];
    assert (tool_invocations t1 = []) as Hnone
      by (apply (omap_none_on enqueue_only); [| exact Hcalls];
          intros [X c r] Hc; destruct c; simpl in *; done).
  2: { unfold trace_of. simpl. rewrite Hnone. by intros ?%elem_of_nil. }
  destruct (Hret g eq_refl) as [-> _].
  rewrite run_mbind. destruct (stream_failure response) as [msg |]; simpl.
  { unfold trace_of. simpl. rewrite app_nil_r, Hnone. by intros ?%elem_of_nil. }
  unfold completed_calls.
  destruct (gather concat None (chunks response) ≫= tool_calls) as [calls |]; simpl.
  - pose proof (dispatch_invocations tm calls s1 tc) as Hdisp.
    destruct (run w (dispatch tm calls) s1) as [[t2 o2] s2].
    unfold trace_of, tool_invocations in *. simpl in *. rewrite omap_app, Hnone. simpl.
    exact Hdisp.
  - unfold trace_of. simpl. rewrite app_nil_r, Hnone. by intros ?%elem_of_nil.
Qed.

(** X18: every tool that an agentic request invokes was listed by the
    registry service in this request, is invoked for a call of its own
    name, and that call is one of the tool calls of the gathered
    response. *)
Theorem invoked_tools_were_listed (req : RequestBody) (s : world_state w)
    (tc : Tool * ToolCall) :
  truthy_id (knowledgebaseId req) = false ->
  tc ∈ tool_invocations (trace_of (run w (handler concat anthropic env req) s)) ->
  exists listed response,
    registry_replies (trace_of (run w (handler concat anthropic env req) s)) = [listed]
    /\ tc.1 ∈ listed
    /\ tool_name_of tc.1 = name tc.2
    /\ stream_replies (trace_of (run w (handler concat anthropic env req) s)) = [response]
    /\ tc.2 ∈ completed_calls (gather concat None (chunks response)).
Proof.
  intros Hfalsy. rewrite (handler_falsy concat anthropic env req Hfalsy).
  unfold agentic_branch. simpl. unfold trace_of.
  do 4 (run_call; [| unfold tool_invocations; simpl; by intros ?%elem_of_nil]).
  destruct (truthy (stream req)); simpl.
  2: { run_call; unfold tool_invocations; simpl; by intros ?%elem_of_nil. }
  do 2 (run_call; [| unfold tool_invocations; simpl; by intros ?%elem_of_nil]).
  rewrite run_mbind.
  match goal with
  | |- context [run w (agentic_stream_body concat (toolsMap ?listed) ?response) ?s0] =>
      pose proof (agentic_stream_body_invocations (toolsMap listed) response s0 tc) as Hbody;
      pose proof (run_calls_only tool_phase_only w _ s0
                    (agentic_stream_body_calls tool_phase_only (fun _ => I)
                       (fun _ _ => I) concat (toolsMap listed) response)) as Hall;
      destruct (run w (agentic_stream_body concat (toolsMap listed) response) s0)
        as [[t [[] | e]] s6];
      unfold trace_of in *; simpl in *; rewrite ?app_nil_r;
      intros Hin; exists listed, response
  end;
    destruct (tool_phase_only_reads t Hall) as [Hs Hr];
    destruct (Hbody Hin) as [Hlookup Hcall];
    apply toolsMap_sound in Hlookup as [Hlisted Hname];
    (split; [unfold registry_replies; simpl; f_equal; exact Hr |]);
    (split; [exact Hlisted |]); (split; [exact Hname |]);
    (split; [unfold stream_replies; simpl; f_equal; exact Hs | exact Hcall]).
Qed.

End MoreRuns.

(** ** The tools bound to the model *)

Section Bindings.

Variable concat : Chunk -> Chunk -> Chunk.
Variable anthropic : string.
Variable env : Env.
Variable w : World.

Lemma agentic_stream_body_models (tm : gmap string Tool) (response : ChunkStream)
    (s : world_state w) :
  called_models (trace_of (run w (agentic_stream_body concat tm response) s)) = []
  /\ created_models (trace_of (run w (agentic_stream_body concat tm response) s)) = []
  /\ client_listings (trace_of (run w (agentic_stream_body concat tm response) s)) = []
  /\ registry_replies (trace_of (run w (agentic_stream_body concat tm response) s)) = [].
Proof.
  assert (Forall (event_call tool_phase_only)
            (trace_of (run w (agentic_stream_body concat tm response) s))) as Hall
    by (apply run_calls_only, agentic_stream_body_calls; intros; exact I).
  split; [| split; [| split]]; apply (omap_none_on tool_phase_only); try exact Hall;
    intros [X c r] Hc; destruct c; simpl in *; done.
Qed.

(** The model that the agentic branch calls: what [createChatModel]
    returned, bound to the tools of the MCP client when it listed any, and
    then to the tools of the registry when it listed any and the family is
    the Anthropic one or the model so far is of the Ollama class. *)
Lemma run_agentic_bindings (req : RequestBody) (s : world_state w) (llm : ChatModel) :
  truthy_id (knowledgebaseId req) = false ->
  llm ∈ called_models (trace_of (run w (handler concat anthropic env req) s)) ->
  exists ds base listed,
    client_listings (trace_of (run w (handler concat anthropic env req) s)) = [ds]
    /\ created_models (trace_of (run w (handler concat anthropic env req) s)) = [base]
    /\ registry_replies (trace_of (run w (handler concat anthropic env req) s)) = [listed]
    /\ llm =
         let bound := match ds with [] => base | _ => Bound (map McpClientTool ds) base end in
         match listed with
         | [] => bound
         | _ => if String.eqb (family req) anthropic then Bound listed bound
                else if instanceof_ChatOllama bound then Bound listed bound
                else bound
         end.
Proof.
  intros Hfalsy. rewrite (handler_falsy concat anthropic env req Hfalsy).
  unfold agentic_branch. simpl. unfold trace_of.
  do 4 (run_call; [| by intros ?%elem_of_nil]).
  match goal with
  | |- context [Called ClientListTools (Returns ?x)] => rename x into ds
  end.
  match goal with
  | |- context [Called (CreateChatModel _ _) (Returns ?x)] => rename x into base
  end.
  match goal with
  | |- context [Called McpServiceListTools (Returns ?x)] => rename x into listed
  end.
  match goal with
  | |- context [Stream ?m _] => remember m as final eqn:Hfinal
  end.
  assert (final =
            let bound :=
              match ds with [] => base | _ => Bound (map McpClientTool ds) base end in
            match default [] listed with
            | [] => bound
            | _ => if String.eqb (family req) anthropic then Bound (default [] listed) bound
                   else if instanceof_ChatOllama bound then Bound (default [] listed) bound
                   else bound
            end) as Hshape by (subst final; by destruct ds).
  clear Hfinal.
  assert (forall t : list Event,
             called_models t = [] /\ created_models t = [] /\ client_listings t = []
             /\ registry_replies t = [] ->
             llm ∈ final :: called_models t ->
             exists ds0 base0 listed0,
               ds :: client_listings t = [ds0]
               /\ base :: created_models t = [base0]
               /\ default [] listed :: registry_replies t = [listed0]
               /\ llm =
                    let bound :=
                      match ds0 with
                      | [] => base0
                      | _ => Bound (map McpClientTool ds0) base0
                      end in
                    match listed0 with
                    | [] => bound
                    | _ => if String.eqb (family req) anthropic then Bound listed0 bound
                           else if instanceof_ChatOllama bound then Bound listed0 bound
                           else bound
                    end) as Hend.
  { intros t (-> & -> & -> & ->) ->%list_elem_of_singleton.
    by exists ds, base, (default [] listed). }
  destruct (truthy (stream req)); simpl.
  - run_call; [| by apply (Hend [])].
    run_call; [| by apply (Hend [])].
    rewrite run_mbind.
    match goal with
    | |- context [run w (agentic_stream_body concat ?tm ?response) ?s0] =>
        pose proof (agentic_stream_body_models tm response s0) as Hbody;
        destruct (run w (agentic_stream_body concat tm response) s0) as [[t [[] | e]] s6]
    end; unfold trace_of in *; simpl in *; rewrite ?app_nil_r; by apply (Hend t).
  - run_call; by apply (Hend []).
Qed.

(** X23: for the Anthropic family, the model that an agentic request calls
    is bound to the tools that the registry listed, when it listed any. *)
Theorem anthropic_model_gets_registry_tools (req : RequestBody) (s : world_state w)
    (llm : ChatModel) (listed : list Tool) :
  truthy_id (knowledgebaseId req) = false ->
  family req = anthropic ->
  registry_replies (trace_of (run w (handler concat anthropic env req) s)) = [listed] ->
  listed <> [] ->
  llm ∈ called_models (trace_of (run w (handler concat anthropic env req) s)) ->
  exists inner, llm = Bound listed inner.
Proof.
  intros Hfalsy Hfamily Hlisted Hsome Hin.
  destruct (run_agentic_bindings req s llm Hfalsy Hin)
    as (ds & base & listed' & _ & _ & Hr & ->).
  rewrite Hr in Hlisted. injection Hlisted as ->.
  rewrite Hfamily, String.eqb_refl. simpl.
  destruct listed; [done |]. by eexists.
Qed.

(** X24: for another family, once the MCP client has listed a tool the
    model that is called is what [createChatModel] returned bound to the
    client's tools and to nothing else: the binding is no instance of the
    Ollama class, so the tools of the registry are not bound, whatever
    the model was. *)
Theorem client_tools_keep_registry_tools_out (req : RequestBody) (s : world_state w)
    (llm : ChatModel) (ds : list ToolDescriptor) :
  truthy_id (knowledgebaseId req) = false ->
  family req <> anthropic ->
  client_listings (trace_of (run w (handler concat anthropic env req) s)) = [ds] ->
  ds <> [] ->
  llm ∈ called_models (trace_of (run w (handler concat anthropic env req) s)) ->
  exists base,
    created_models (trace_of (run w (handler concat anthropic env req) s)) = [base]
    /\ llm = Bound (map McpClientTool ds) base.
Proof.
  intros Hfalsy Hfamily Hds Hsome Hin.
  destruct (run_agentic_bindings req s llm Hfalsy Hin)
    as (ds' & base & listed & Hl & Hc & _ & ->).
  rewrite Hl in Hds. injection Hds as ->.
  exists base. split; [exact Hc |].
  apply String.eqb_neq in Hfamily. rewrite Hfamily. simpl.
  destruct ds; [done |]. by destruct listed.
Qed.

(** X25: for another family and an MCP client that lists no tool, the
    tools of the registry are bound to the model exactly when
    [createChatModel] returned a model of the Ollama class; otherwise the
    model is called as it was created. *)
Theorem ollama_model_gets_registry_tools (req : RequestBody) (s : world_state w)
    (llm : ChatModel) (listed : list Tool) :
  truthy_id (knowledgebaseId req) = false ->
  family req <> anthropic ->
  client_listings (trace_of (run w (handler concat anthropic env req) s)) = [[]] ->
  registry_replies (trace_of (run w (handler concat anthropic env req) s)) = [listed] ->
  listed <> [] ->
  llm ∈ called_models (trace_of (run w (handler concat anthropic env req) s)) ->
  exists base,
    created_models (trace_of (run w (handler concat anthropic env req) s)) = [base]
    /\ llm = if instanceof_ChatOllama base then Bound listed base else base.
Proof.
  intros Hfalsy Hfamily Hds Hlisted Hsome Hin.
  destruct (run_agentic_bindings req s llm Hfalsy Hin)
    as (ds' & base & listed' & Hl & Hc & Hr & ->).
  rewrite Hl in Hds. injection Hds as ->.
  rewrite Hr in Hlisted. injection Hlisted as ->.
  exists base. split; [exact Hc |].
  apply String.eqb_neq in Hfamily. rewrite Hfamily. simpl.
  by destruct listed.
Qed.

End Bindings.

(** ** The further theorems at work on the requests above *)

Lemma normalizeMessages_drops_other_roles_witness :
  normalizeMessages ([user_says "Hello"] ++ system_says "Be brief." :: [assistant_says "Hi"]) =
    normalizeMessages ([user_says "Hello"] ++ [assistant_says "Hi"]).
Proof.
  apply (normalizeMessages_drops_other_roles [user_says "Hello"] [assistant_says "Hi"]
           (system_says "Be brief.")).
  - reflexivity.
  - discriminate.
  - discriminate.
Defined.

Lemma serializeMessages_app_witness :
  serializeMessages ([user_says "Hello"] ++ [assistant_says "Hi"; user_says "Bye"]) =
    serializeMessages [user_says "Hello"] +:+ nl
      +:+ serializeMessages [assistant_says "Hi"; user_says "Bye"].
Proof.
  apply (serializeMessages_app [user_says "Hello"] [assistant_says "Hi"; user_says "Bye"]).
  - discriminate.
  - discriminate.
Defined.

Lemma toolsMap_last_wins_witness :
  toolsMap ([RegistryTool "search" 1] ++ RegistryTool "search" 2 :: [fetch_tool])
    !! tool_name_of (RegistryTool "search" 2) = Some (RegistryTool "search" 2)
  /\ forall earlier,
       earlier ∈ [RegistryTool "search" 1] ->
       tool_name_of earlier = tool_name_of (RegistryTool "search" 2) ->
       earlier <> RegistryTool "search" 2 ->
       toolsMap ([RegistryTool "search" 1] ++ RegistryTool "search" 2 :: [fetch_tool])
         !! tool_name_of earlier <> Some earlier.
Proof.
  apply (toolsMap_last_wins [RegistryTool "search" 1] [fetch_tool] (RegistryTool "search" 2)).
  repeat constructor. discriminate.
Defined.

Lemma toolsMap_unique_names_witness :
  toolsMap [search_tool; fetch_tool] !! tool_name_of fetch_tool = Some fetch_tool.
Proof.
  apply (toolsMap_unique_names [search_tool; fetch_tool] fetch_tool).
  - apply (bool_decide_unpack _). vm_compute. exact I.
  - apply list_elem_of_further, list_elem_of_here.
Defined.


Lemma agentic_model_input_witness :
  (forall input,
      input ∈ model_inputs (trace_of (scripted_run tools_script plain_env
                                        (agentic_request (JsBool true)))) ->
      input = MessagesInput (transformMessages (messages (agentic_request (JsBool true)))))
  /\ Forall (fun ev => is_knowledge_base_call ev = false)
       (trace_of (scripted_run tools_script plain_env (agentic_request (JsBool true)))).
Proof.
  apply (agentic_model_input merge_chunks "Anthropic" plain_env (scripted tools_script)
           (agentic_request (JsBool true)) ()).
  reflexivity.
Defined.

Lemma knowledge_base_branch_never_uses_mcp_witness :
  Forall (fun ev => is_mcp_call ev = false)
    (trace_of (scripted_run library_script cohere_env (warranty_request (JsBool true)))).
Proof.
  apply (knowledge_base_branch_never_uses_mcp merge_chunks "Anthropic" cohere_env
           (scripted library_script) (warranty_request (JsBool true)) ()).
  reflexivity.
Defined.

Lemma empty_messages_knowledge_base_witness :
  coref_calls (trace_of (scripted_run library_script plain_env empty_request)) = []
  /\ retrievals (trace_of (scripted_run library_script plain_env empty_request)) = []
  /\ model_inputs (trace_of (scripted_run library_script plain_env empty_request)) = []
  /\ (forall resp,
        outcome_of (scripted_run library_script plain_env empty_request) = Returned resp ->
        resp = RespUndefined)
  /\ (Forall (fun ev => event_returned ev = true)
         (trace_of (scripted_run library_script plain_env empty_request)) ->
       status_calls (trace_of (scripted_run library_script plain_env empty_request)) = [] ->
       outcome_of (scripted_run library_script plain_env empty_request) =
         Thrown (TypeError "Cannot read properties of undefined (reading 'content')")).
Proof.
  apply (empty_messages_knowledge_base merge_chunks "Anthropic" plain_env
           (scripted library_script) empty_request ()).
  - reflexivity.
  - reflexivity.
Defined.

Lemma reranker_off_witness :
  rerank_calls (trace_of (scripted_run library_script plain_env
                            (warranty_request (JsBool false)))) = [].
Proof.
  apply (reranker_off merge_chunks "Anthropic" plain_env (scripted library_script)
           (warranty_request (JsBool false)) ()).
  reflexivity.
Defined.

Lemma reranker_input_witness :
  (rerank_options cohere_env, [doc "d1"; doc "d2"; doc "d3"; doc "d4"; doc "d5"],
   "What is the warranty of the X200 printer?",
   Returns [doc "d1"; doc "d2"; doc "d3"; doc "d4"]).1.1.1 = rerank_options cohere_env
  /\ topN (rerank_options cohere_env, [doc "d1"; doc "d2"; doc "d3"; doc "d4"; doc "d5"],
           "What is the warranty of the X200 printer?",
           Returns [doc "d1"; doc "d2"; doc "d3"; doc "d4"]).1.1.1 = 4%nat
  /\ retrievals (trace_of (scripted_run library_script cohere_env
                             (warranty_request (JsBool false)))) =
       [((rerank_options cohere_env, [doc "d1"; doc "d2"; doc "d3"; doc "d4"; doc "d5"],
          "What is the warranty of the X200 printer?",
          Returns [doc "d1"; doc "d2"; doc "d3"; doc "d4"]).1.2,
         Returns (rerank_options cohere_env, [doc "d1"; doc "d2"; doc "d3"; doc "d4"; doc "d5"],
                  "What is the warranty of the X200 printer?",
                  Returns [doc "d1"; doc "d2"; doc "d3"; doc "d4"]).1.1.2)].
Proof.
  apply (reranker_input merge_chunks "Anthropic" cohere_env (scripted library_script)
           (warranty_request (JsBool false)) ()).
  - reflexivity.
  - vm_compute. constructor.
Defined.

Lemma reranker_failure_aborts_witness :
  outcome_of (scripted_run failing_rerank_script cohere_env (warranty_request (JsBool true))) =
    Thrown (JsError "rerank service unavailable")
  /\ model_inputs (trace_of (scripted_run failing_rerank_script cohere_env
                               (warranty_request (JsBool true)))) = []
  /\ emitted (trace_of (scripted_run failing_rerank_script cohere_env
                          (warranty_request (JsBool true)))) = [].
Proof.
  apply (reranker_failure_aborts merge_chunks "Anthropic" cohere_env
           (scripted failing_rerank_script) (warranty_request (JsBool true)) ()
           (rerank_options cohere_env, [doc "d1"; doc "d2"; doc "d3"; doc "d4"; doc "d5"],
            "What is the warranty of the X200 printer?",
            Raises (JsError "rerank service unavailable"))).
  - reflexivity.
  - vm_compute. constructor.
  - reflexivity.
Defined.

Lemma knowledge_base_stream_events_witness :
  exists response d,
    stream_replies (trace_of (scripted_run library_script cohere_env
                                (warranty_request (JsBool true)))) = [response]
    /\ emitted (trace_of (scripted_run library_script cohere_env
                            (warranty_request (JsBool true)))) =
         yielded (chunks response) ++ [RelevantDocuments d].
Proof.
  apply (knowledge_base_stream_events merge_chunks "Anthropic" cohere_env
           (scripted library_script) (warranty_request (JsBool true)) ()).
  - reflexivity.
  - vm_compute. reflexivity.
Defined.

Lemma documents_event_means_completion_witness :
  outcome_of (scripted_run library_script cohere_env (warranty_request (JsBool true))) =
    Returned RespStream.
Proof.
  apply (documents_event_means_completion merge_chunks "Anthropic" cohere_env
           (scripted library_script) (warranty_request (JsBool true)) ()
           [doc "d1"; doc "d2"; doc "d3"; doc "d4"]).
  - reflexivity.
  - vm_compute. repeat constructor.
Defined.

Lemma invoked_tools_were_listed_witness :
  exists listed response,
    registry_replies (trace_of (scripted_run tools_script plain_env
                                  (agentic_request (JsBool true)))) = [listed]
    /\ (search_tool, call_of "search" "call_1").1 ∈ listed
    /\ tool_name_of (search_tool, call_of "search" "call_1").1 =
         name (search_tool, call_of "search" "call_1").2
    /\ stream_replies (trace_of (scripted_run tools_script plain_env
                                   (agentic_request (JsBool true)))) = [response]
    /\ (search_tool, call_of "search" "call_1").2
         ∈ completed_calls (gather merge_chunks None (chunks response)).
Proof.
  apply (invoked_tools_were_listed merge_chunks "Anthropic" plain_env (scripted tools_script)
           (agentic_request (JsBool true)) () (search_tool, call_of "search" "call_1")).
  - reflexivity.
  - vm_compute. constructor.
Defined.

Lemma sync_answer_has_retrieved_documents_witness :
  exists q docs,
    retrievals (trace_of (scripted_run library_script cohere_env
                            (warranty_request (JsBool false)))) = [(q, Returns docs)]
    /\ relevant_docs (assistant_message (Some (Text "Two years."))
                        (Some [doc "d1"; doc "d2"; doc "d3"; doc "d4"; doc "d5"])) =
         Some docs.
Proof.
  apply (sync_answer_has_retrieved_documents merge_chunks "Anthropic" cohere_env
           (scripted library_script) (warranty_request (JsBool false)) ()).
  - reflexivity.
  - vm_compute. reflexivity.
Defined.

Lemma streamed_documents_witness :
  exists q docs,
    retrievals (trace_of (scripted_run library_script cohere_env
                            (warranty_request (JsBool true)))) = [(q, Returns docs)]
    /\ if rerank_configured cohere_env
       then rerank_calls (trace_of (scripted_run library_script cohere_env
                                      (warranty_request (JsBool true)))) =
              [(rerank_options cohere_env, docs, q,
                Returns [doc "d1"; doc "d2"; doc "d3"; doc "d4"])]
       else rerank_calls (trace_of (scripted_run library_script cohere_env
                                      (warranty_request (JsBool true)))) = []
            /\ [doc "d1"; doc "d2"; doc "d3"; doc "d4"] = docs.
Proof.
  apply (streamed_documents merge_chunks "Anthropic" cohere_env (scripted library_script)
           (warranty_request (JsBool true)) ()).
  - reflexivity.
  - vm_compute. repeat constructor.
Defined.

Lemma agentic_results_last_witness :
  results_last (emitted (trace_of (scripted_run failing_tool_script plain_env
                                     (agentic_request (JsBool true))))).
Proof.
  apply (agentic_results_last merge_chunks "Anthropic" plain_env (scripted failing_tool_script)
           (agentic_request (JsBool true)) ()).
  reflexivity.
Defined.


Lemma anthropic_model_gets_registry_tools_witness :
  exists inner,
    Bound [search_tool; fetch_tool] (Bound [McpClientTool read_query] (ChatModelRef 0 false)) =
      Bound [search_tool; fetch_tool] inner.
Proof.
  apply (anthropic_model_gets_registry_tools merge_chunks "Anthropic" plain_env
           (scripted tools_script) (agentic_request (JsBool true)) ()).
  - reflexivity.
  - reflexivity.
  - reflexivity.
  - discriminate.
  - vm_compute. constructor.
Defined.

Lemma client_tools_keep_registry_tools_out_witness :
  exists base,
    created_models (trace_of (run (ollama_world tools_script)
                                (handler merge_chunks "Anthropic" plain_env
                                   (ollama_request (JsBool false))) ())) = [base]
    /\ Bound [McpClientTool read_query] (ChatModelRef 0 true) =
         Bound (map McpClientTool [read_query]) base.
Proof.
  apply (client_tools_keep_registry_tools_out merge_chunks "Anthropic" plain_env
           (ollama_world tools_script) (ollama_request (JsBool false)) ()).
  - reflexivity.
  - discriminate.
  - reflexivity.
  - discriminate.
  - vm_compute. constructor.
Defined.

Lemma ollama_model_gets_registry_tools_witness :
  exists base,
    created_models (trace_of (run (ollama_world registry_only_script)
                                (handler merge_chunks "Anthropic" plain_env
                                   (ollama_request (JsBool true))) ())) = [base]
    /\ Bound [search_tool; fetch_tool] (ChatModelRef 0 true) =
         if instanceof_ChatOllama base then Bound [search_tool; fetch_tool] base else base.
Proof.
  apply (ollama_model_gets_registry_tools merge_chunks "Anthropic" plain_env
           (ollama_world registry_only_script) (ollama_request (JsBool true)) ()).
  - reflexivity.
  - discriminate.
  - reflexivity.
  - reflexivity.
  - discriminate.
  - vm_compute. constructor.
Defined.
